(** * SurfSense: the document routes

    A shallow embedding of
    [surfsense_backend/app/routes/documents_routes.py]
    and the properties of its request handlers.

    The handlers are written in a small state-and-exception monad over a
    [World] made of the request's database session, the
    [BackgroundTasks] object, the directory of temporary files and the
    log.  A Python exception leaves the mutations made before it in
    place, so a computation returns its outcome together with the world
    it reached, also when it raises. *)

From Stdlib Require Import ZArith List String Ascii Bool Lia.
From Stdlib Require Import DecimalString.
From Stdlib Require Decimal DecimalPos DecimalZ.
Import ListNotations.

Local Open Scope string_scope.
Local Open Scope Z_scope.

(** ** Exceptions *)

(** The two kinds of exception the handlers tell apart: FastAPI's
    [HTTPException], and every other exception, of which only [str(e)]
    is ever used. *)
Inductive exn : Type :=
| HTTPException (status_code : Z) (detail : string)
| Error (message : string).

(** The classes named in the [except] clauses.  [HTTPException] is a
    subclass of [Exception], which is a subclass of [BaseException]. *)
Inductive exn_class : Type :=
| cls_HTTPException
| cls_Exception
| cls_BaseException.

Definition isinstance (e : exn) (c : exn_class) : bool :=
  match c, e with
  | cls_HTTPException, HTTPException _ _ => true
  | cls_HTTPException, Error _ => false
  | cls_Exception, _ => true
  | cls_BaseException, _ => true
  end.

(** [str(i)] for a Python [int]. *)
Definition str_int (i : Z) : string :=
  NilZero.string_of_int (Z.to_int i).

(** [str(e)].  Starlette's [HTTPException.__str__] gives
    ["{status_code}: {detail}"]. *)
Definition str (e : exn) : string :=
  match e with
  | HTTPException status_code detail => str_int status_code ++ ": " ++ detail
  | Error message => message
  end.

Definition status_of (e : exn) : option Z :=
  match e with
  | HTTPException status_code _ => Some status_code
  | Error _ => None
  end.

(** ** The data model *)

(** Modelled from the spec: the enumeration [DocumentType] of [app.db],
    which is not part of this file.  The handlers name [EXTENSION],
    [CRAWLED_URL] and [YOUTUBE_VIDEO]; the spec lists "extension capture,
    crawled URL, file upload, YouTube video, ...", so [FILE] is the file
    upload and [OTHER] stands for the members the list leaves out. *)
Inductive DocumentType : Type :=
| EXTENSION
| CRAWLED_URL
| FILE
| YOUTUBE_VIDEO
| OTHER (name : string).

Module User.
Record t : Type := { id : Z }.
End User.

(** The two columns of [SearchSpace] the routes use: [user_id] in the
    filters, [id] as the target of [Document.search_space_id] in the
    join. *)
Module SearchSpace.
Record t : Type := { id : Z; user_id : Z }.
End SearchSpace.

(** The attributes of [Document] that the routes read (lines 190-196). *)
Module Document.
Record t : Type := {
  id : Z;
  title : string;
  document_type : DocumentType;
  document_metadata : string;
  content : string;
  created_at : Z;
  search_space_id : Z
}.
End Document.

(** The response schema, built field by field at lines 189, 227, 271. *)
Module DocumentRead.
Record t : Type := {
  id : Z;
  title : string;
  document_type : DocumentType;
  document_metadata : string;
  content : string;
  created_at : Z;
  search_space_id : Z
}.
End DocumentRead.

Definition to_DocumentRead (doc : Document.t) : DocumentRead.t :=
  {| DocumentRead.id := Document.id doc;
     DocumentRead.title := Document.title doc;
     DocumentRead.document_type := Document.document_type doc;
     DocumentRead.document_metadata := Document.document_metadata doc;
     DocumentRead.content := Document.content doc;
     DocumentRead.created_at := Document.created_at doc;
     DocumentRead.search_space_id := Document.search_space_id doc |}.

(** Modelled from the spec: the request schema [DocumentsCreate] of
    [app.schemas]: "a search-space id and a list of content items tagged
    with a document type".  An item is kept as the text it carries. *)
Module DocumentsCreate.
Record t : Type := {
  document_type : DocumentType;
  content : list string;
  search_space_id : Z
}.
End DocumentsCreate.

(** Modelled from the spec: the request schema [DocumentUpdate] of
    [app.schemas], a "partial update using only fields explicitly present
    in the request body".  [None] is a field the body leaves unset. *)
Module DocumentUpdate.
Record t : Type := {
  title : option string;
  document_type : option DocumentType;
  document_metadata : option string;
  content : option string;
  search_space_id : option Z
}.
End DocumentUpdate.

(** One item of the dictionary [model_dump(exclude_unset=True)]: the
    attribute name with its value. *)
Inductive item : Type :=
| item_title (value : string)
| item_document_type (value : DocumentType)
| item_document_metadata (value : string)
| item_content (value : string)
| item_search_space_id (value : Z).

Definition opt_item {A : Type} (mk : A -> item) (o : option A) : list item :=
  match o with
  | Some value => [mk value]
  | None => []
  end.

Definition model_dump_exclude_unset (u : DocumentUpdate.t) : list item :=
  opt_item item_title (DocumentUpdate.title u)
  ++ opt_item item_document_type (DocumentUpdate.document_type u)
  ++ opt_item item_document_metadata (DocumentUpdate.document_metadata u)
  ++ opt_item item_content (DocumentUpdate.content u)
  ++ opt_item item_search_space_id (DocumentUpdate.search_space_id u).

(** [setattr(db_document, key, value)] on the attribute values. *)
Definition set_attribute (doc : Document.t) (kv : item) : Document.t :=
  match kv with
  | item_title v =>
      {| Document.id := Document.id doc; Document.title := v;
         Document.document_type := Document.document_type doc;
         Document.document_metadata := Document.document_metadata doc;
         Document.content := Document.content doc;
         Document.created_at := Document.created_at doc;
         Document.search_space_id := Document.search_space_id doc |}
  | item_document_type v =>
      {| Document.id := Document.id doc; Document.title := Document.title doc;
         Document.document_type := v;
         Document.document_metadata := Document.document_metadata doc;
         Document.content := Document.content doc;
         Document.created_at := Document.created_at doc;
         Document.search_space_id := Document.search_space_id doc |}
  | item_document_metadata v =>
      {| Document.id := Document.id doc; Document.title := Document.title doc;
         Document.document_type := Document.document_type doc;
         Document.document_metadata := v;
         Document.content := Document.content doc;
         Document.created_at := Document.created_at doc;
         Document.search_space_id := Document.search_space_id doc |}
  | item_content v =>
      {| Document.id := Document.id doc; Document.title := Document.title doc;
         Document.document_type := Document.document_type doc;
         Document.document_metadata := Document.document_metadata doc;
         Document.content := v;
         Document.created_at := Document.created_at doc;
         Document.search_space_id := Document.search_space_id doc |}
  | item_search_space_id v =>
      {| Document.id := Document.id doc; Document.title := Document.title doc;
         Document.document_type := Document.document_type doc;
         Document.document_metadata := Document.document_metadata doc;
         Document.content := Document.content doc;
         Document.created_at := Document.created_at doc;
         Document.search_space_id := v |}
  end.

(** ** The world of a request *)

Record Database : Type := {
  documents : list Document.t;
  searchspaces : list SearchSpace.t
}.

(** An [AsyncSession] as a unit of work: the rows of the database, and
    what the session has been told but has not flushed yet.  [dirty] holds
    the objects changed by [setattr], the latest first; [deleted] the
    primary keys passed to [session.delete]. *)
Record Session : Type := {
  database : Database;
  dirty : list Document.t;
  deleted : list Z
}.

(** A call recorded by [BackgroundTasks.add_task]: the function with its
    arguments. *)
Inductive Task : Type :=
| process_extension_document_with_new_session
    (individual_document : string) (search_space_id : Z)
| process_crawled_url_with_new_session (url : string) (search_space_id : Z)
| process_youtube_video_with_new_session (url : string) (search_space_id : Z)
| process_file_in_background_with_new_session
    (file_path filename : string) (search_space_id : Z).

(** The files on local storage, by path, and the number of temporary
    names handed out so far. *)
Record FileSystem : Type := {
  files : list (string * string);
  tmp_counter : nat
}.

Record World : Type := {
  session : Session;
  fastapi_background_tasks : list Task;
  filesystem : FileSystem;
  logging : list string
}.

Definition with_session (w : World) (s : Session) : World :=
  {| session := s;
     fastapi_background_tasks := fastapi_background_tasks w;
     filesystem := filesystem w;
     logging := logging w |}.

Definition with_tasks (w : World) (ts : list Task) : World :=
  {| session := session w;
     fastapi_background_tasks := ts;
     filesystem := filesystem w;
     logging := logging w |}.

Definition with_filesystem (w : World) (fs : FileSystem) : World :=
  {| session := session w;
     fastapi_background_tasks := fastapi_background_tasks w;
     filesystem := fs;
     logging := logging w |}.

Definition with_logging (w : World) (l : list string) : World :=
  {| session := session w;
     fastapi_background_tasks := fastapi_background_tasks w;
     filesystem := filesystem w;
     logging := l |}.

(** ** The monad *)

Inductive Result (A : Type) : Type :=
| Return (a : A)
| Raise (e : exn).

Arguments Return {A} a.
Arguments Raise {A} e.

Definition M (A : Type) : Type := World -> Result A * World.

Definition ret {A : Type} (a : A) : M A := fun w => (Return a, w).

Definition raise {A : Type} (e : exn) : M A := fun w => (Raise e, w).

Definition bind {A B : Type} (m : M A) (k : A -> M B) : M B :=
  fun w =>
    match m w with
    | (Return a, w') => k a w'
    | (Raise e, w') => (Raise e, w')
    end.

Declare Scope py_scope.
Delimit Scope py_scope with py.

Notation "x <- m ;; k" := (bind m (fun x => k))
  (at level 61, m at next level, right associativity) : py_scope.
Notation "m ;; k" := (bind m (fun _ => k))
  (at level 61, right associativity) : py_scope.

Local Open Scope py_scope.

(** A value or an exception that does not depend on the world. *)
Definition lift {A : Type} (r : Result A) : M A := fun w => (r, w).

(** One [except C as e: handler] clause. *)
Definition clause (A : Type) : Type := (exn_class * (exn -> M A))%type.

Definition except {A : Type} (c : exn_class) (h : exn -> M A) : clause A :=
  (c, h).

(** The clauses of a [try] statement are tried in order; an exception
    that matches none of them propagates. *)
Fixpoint handle {A : Type} (clauses : list (clause A)) (e : exn) : M A :=
  match clauses with
  | [] => raise e
  | (c, h) :: rest => if isinstance e c then h e else handle rest e
  end.

(** [try: body  except ...: ...] *)
Definition try_except {A : Type} (body : M A) (clauses : list (clause A)) : M A :=
  fun w =>
    match body w with
    | (Return a, w') => (Return a, w')
    | (Raise e, w') => handle clauses e w'
    end.

(** [for x in xs: body] *)
Fixpoint for_each {A : Type} (xs : list A) (body : A -> M unit) : M unit :=
  match xs with
  | [] => ret tt
  | x :: rest => body x ;; for_each rest body
  end.

(** ** The session *)

(** A [select(Document).join(SearchSpace).filter(...)] statement, with
    the optional [.offset(...)] and [.limit(...)]. *)
Record Select : Type := {
  criteria : Document.t -> SearchSpace.t -> bool;
  offset : option Z;
  limit : option Z
}.

(** [Document JOIN SearchSpace], on the foreign key
    [Document.search_space_id = SearchSpace.id]: every document row
    paired with every search space row it refers to, documents in table
    order. *)
Definition join_SearchSpace (db : Database) : list (Document.t * SearchSpace.t) :=
  flat_map
    (fun doc =>
       map (pair doc)
         (filter (fun space => SearchSpace.id space =? Document.search_space_id doc)
            (searchspaces db)))
    (documents db).

Definition rows (db : Database) (q : Select) : list Document.t :=
  map fst (filter (fun r => criteria q (fst r) (snd r)) (join_SearchSpace db)).

Definition is_negative (o : option Z) : bool :=
  match o with
  | Some n => n <? 0
  | None => false
  end.

Definition apply_offset (o : option Z) (l : list Document.t) : list Document.t :=
  match o with
  | Some n => skipn (Z.to_nat n) l
  | None => l
  end.

Definition apply_limit (o : option Z) (l : list Document.t) : list Document.t :=
  match o with
  | Some n => firstn (Z.to_nat n) l
  | None => l
  end.

(** [await session.execute(q)] followed by [result.scalars()].  The
    database refuses a negative OFFSET or LIMIT, and the driver raises. *)
Definition session_execute (q : Select) : M (list Document.t) :=
  fun w =>
    if is_negative (offset q) then (Raise (Error "OFFSET must not be negative"), w)
    else if is_negative (limit q) then (Raise (Error "LIMIT must not be negative"), w)
    else (Return (apply_limit (limit q)
                    (apply_offset (offset q) (rows (database (session w)) q))), w).

(** [result.scalars().first()] *)
Definition scalars_first (result : list Document.t) : option Document.t :=
  match result with
  | [] => None
  | doc :: _ => Some doc
  end.

(** [result.scalars().all()] *)
Definition scalars_all (result : list Document.t) : list Document.t := result.

(** [setattr(db_document, key, value)] on an object the session tracks:
    the object changes and the session holds the same, changed object. *)
Definition setattr (db_document : Document.t) (kv : item) : M Document.t :=
  fun w =>
    let changed := set_attribute db_document kv in
    (Return changed,
     with_session w
       {| database := database (session w);
          dirty := changed :: dirty (session w);
          deleted := deleted (session w) |}).

(** [await session.delete(document)] *)
Definition session_delete (document : Document.t) : M unit :=
  fun w =>
    (Return tt,
     with_session w
       {| database := database (session w);
          dirty := dirty (session w);
          deleted := Document.id document :: deleted (session w) |}).

Definition has_id (pk : Z) (doc : Document.t) : bool := Document.id doc =? pk.

(** The row as the flush writes it: UPDATE ... WHERE id = the primary
    key of the changed object. *)
Definition flush_row (changed : list Document.t) (row : Document.t) : Document.t :=
  match find (has_id (Document.id row)) changed with
  | Some obj => obj
  | None => row
  end.

Definition is_deleted (gone : list Z) (row : Document.t) : bool :=
  existsb (Z.eqb (Document.id row)) gone.

Definition flush (s : Session) : Database :=
  {| documents :=
       filter (fun row => negb (is_deleted (deleted s) row))
         (map (flush_row (dirty s)) (documents (database s)));
     searchspaces := searchspaces (database s) |}.

(** [await session.commit()] *)
Definition session_commit : M unit :=
  fun w =>
    (Return tt,
     with_session w {| database := flush (session w); dirty := []; deleted := [] |}).

(** [await session.rollback()] *)
Definition session_rollback : M unit :=
  fun w =>
    (Return tt,
     with_session w
       {| database := database (session w); dirty := []; deleted := [] |}).

(** [await session.refresh(db_document)]: the attributes are loaded again
    from the row with the object's primary key. *)
Definition session_refresh (db_document : Document.t) : M Document.t :=
  fun w =>
    match find (has_id (Document.id db_document))
            (documents (database (session w))) with
    | Some row => (Return row, w)
    | None => (Raise (Error "Could not refresh instance"), w)
    end.

(** [fastapi_background_tasks.add_task(func, *args)] *)
Definition add_task (t : Task) : M unit :=
  fun w => (Return tt, with_tasks w (fastapi_background_tasks w ++ [t])).

(** ** Uploaded files and temporary storage *)

(** An [UploadFile]: its name, and what [await file.read()] does, which
    is to return the content or to raise. *)
Record UploadFile : Type := {
  filename : string;
  read : Result string
}.

Definition is_sep (c : ascii) : bool := Ascii.eqb c "/".
Definition is_dot (c : ascii) : bool := Ascii.eqb c ".".

Definition last_component (p : list ascii) : list ascii :=
  fold_left (fun acc c => if is_sep c then [] else (acc ++ [c])%list) p [].

Fixpoint drop_leading_dots (p : list ascii) : list ascii :=
  match p with
  | [] => []
  | c :: rest => if is_dot c then drop_leading_dots rest else p
  end.

Fixpoint from_last_dot (p : list ascii) : list ascii :=
  match p with
  | [] => []
  | c :: rest =>
      match from_last_dot rest with
      | [] => if is_dot c then p else []
      | ext => ext
      end
  end.

(** [os.path.splitext(p)[1]]: the extension starts at the last dot of the
    last path component, leading dots of that component apart. *)
Definition splitext_ext (p : string) : string :=
  string_of_list_ascii
    (from_last_dot (drop_leading_dots (last_component (list_ascii_of_string p)))).

(** [with tempfile.NamedTemporaryFile(delete=False, suffix=...) as
    temp_file: temp_path = temp_file.name]: a new, empty file under a name
    not handed out before; it stays when the block is left. *)
Definition NamedTemporaryFile (suffix : string) : M string :=
  fun w =>
    let fs := filesystem w in
    let temp_path := "/tmp/tmp" ++ str_int (Z.of_nat (tmp_counter fs)) ++ suffix in
    (Return temp_path,
     with_filesystem w
       {| files := (temp_path, EmptyString) :: files fs;
          tmp_counter := S (tmp_counter fs) |}).

Definition at_path (path : string) (entry : string * string) : bool :=
  String.eqb (fst entry) path.

(** [with open(temp_path, "wb") as f: f.write(content)] *)
Definition write_file (path content : string) : M unit :=
  fun w =>
    let fs := filesystem w in
    (Return tt,
     with_filesystem w
       {| files := (path, content)
                     :: filter (fun entry => negb (at_path path entry)) (files fs);
          tmp_counter := tmp_counter fs |}).

(** [os.unlink(file_path)], which raises when there is no such file. *)
Definition os_unlink (path : string) : M unit :=
  fun w =>
    let fs := filesystem w in
    if existsb (at_path path) (files fs) then
      (Return tt,
       with_filesystem w
         {| files := filter (fun entry => negb (at_path path entry)) (files fs);
            tmp_counter := tmp_counter fs |})
    else
      (Raise (Error ("[Errno 2] No such file or directory: '" ++ path ++ "'")), w).

(** [logging.error(msg)] *)
Definition logging_error (msg : string) : M unit :=
  fun w => (Return tt, with_logging w (logging w ++ [msg])).

(** ** The routes *)

Section Routes.

(** [check_ownership] of [app.utils.check_ownership], called with the
    model [SearchSpace]: it returns the search space or raises. *)
Variable check_ownership : Session -> Z -> User.t -> Result SearchSpace.t.

(** [loader.load()] of the document-partitioning library, on the file
    at a path: the parsed elements, or an exception. *)
Variable loader_load : FileSystem -> string -> Result (list string).

(** [add_received_file_document(session, filename, docs,
    search_space_id)] of [app.tasks.background_tasks]. *)
Variable add_received_file_document : string -> list string -> Z -> M unit.

Definition await_check_ownership (item_id : Z) (user : User.t) : M SearchSpace.t :=
  fun w => (check_ownership (session w) item_id user, w).

(** [POST /documents/] (lines 24-71). *)
Definition create_documents (request : DocumentsCreate.t) (user : User.t)
  : M string :=
  try_except
    (_ <- await_check_ownership (DocumentsCreate.search_space_id request) user ;;
     match DocumentsCreate.document_type request with
     | EXTENSION =>
         for_each (DocumentsCreate.content request)
           (fun individual_document =>
              add_task (process_extension_document_with_new_session
                          individual_document
                          (DocumentsCreate.search_space_id request)))
     | CRAWLED_URL =>
         for_each (DocumentsCreate.content request)
           (fun url =>
              add_task (process_crawled_url_with_new_session
                          url (DocumentsCreate.search_space_id request)))
     | YOUTUBE_VIDEO =>
         for_each (DocumentsCreate.content request)
           (fun url =>
              add_task (process_youtube_video_with_new_session
                          url (DocumentsCreate.search_space_id request)))
     | _ => raise (HTTPException 400 "Invalid document type")
     end ;;
     session_commit ;;
     ret "Documents processed successfully")
    [ except cls_HTTPException (fun e => raise e);
      except cls_Exception
        (fun e =>
           session_rollback ;;
           raise (HTTPException 500 ("Failed to process documents: " ++ str e))) ].

(** The body of the inner [try] of the upload route (lines 89-109):
    staging one file. *)
Definition stage_file (file : UploadFile) (search_space_id : Z) : M unit :=
  temp_path <- NamedTemporaryFile (splitext_ext (filename file)) ;;
  content <- lift (read file) ;;
  write_file temp_path content ;;
  add_task (process_file_in_background_with_new_session
              temp_path (filename file) search_space_id).

(** One turn of the loop over the files (lines 87-114): the staging
    under its [except Exception] clause. *)
Definition stage_or_422 (search_space_id : Z) (file : UploadFile) : M unit :=
  try_except (stage_file file search_space_id)
    [ except cls_Exception
        (fun e =>
           raise (HTTPException 422
                    ("Failed to process file " ++ filename file
                     ++ ": " ++ str e))) ].

(** [POST /documents/fileupload] (lines 73-125). *)
Definition create_documents_fileupload
    (upload : list UploadFile) (search_space_id : Z) (user : User.t)
  : M string :=
  try_except
    (_ <- await_check_ownership search_space_id user ;;
     match upload with
     | [] => raise (HTTPException 400 "No files provided")
     | _ => ret tt
     end ;;
     for_each upload (stage_or_422 search_space_id) ;;
     session_commit ;;
     ret "Files uploaded for processing")
    [ except cls_HTTPException (fun e => raise e);
      except cls_Exception
        (fun e =>
           session_rollback ;;
           raise (HTTPException 500 ("Failed to upload files: " ++ str e))) ].

(** [process_file_in_background] (lines 128-167); the task's own
    session is the session of the world it runs in. *)
Definition process_file_in_background
    (file_path filename : string) (search_space_id : Z) : M unit :=
  try_except
    (docs <- (fun w => (loader_load (filesystem w) file_path, w)) ;;
     try_except (os_unlink file_path)
       [ except cls_BaseException (fun _ => ret tt) ] ;;
     add_received_file_document filename docs search_space_id)
    [ except cls_Exception
        (fun e =>
           logging_error ("Error processing file in background: " ++ str e)) ].

(** The statement of [read_documents]. *)
Definition select_owned (user : User.t) (skip limit : Z) : Select :=
  {| criteria := fun _ space => SearchSpace.user_id space =? User.id user;
     offset := Some skip;
     limit := Some limit |}.

(** The statement shared by [read_document], [update_document] and
    [delete_document]. *)
Definition select_owned_by_id (document_id : Z) (user : User.t) : Select :=
  {| criteria := fun doc space =>
                   (Document.id doc =? document_id)
                   && (SearchSpace.user_id space =? User.id user);
     offset := None;
     limit := None |}.

Definition default (d : Z) (o : option Z) : Z :=
  match o with
  | Some v => v
  | None => d
  end.

(** [GET /documents/] (lines 169-204); a query parameter that the
    request leaves out is [None] and takes the default of the
    signature. *)
Definition read_documents (skip limit : option Z) (user : User.t)
  : M (list DocumentRead.t) :=
  let skip := default 0 skip in
  let limit := default 300 limit in
  try_except
    (result <- session_execute (select_owned user skip limit) ;;
     let db_documents := scalars_all result in
     ret (map to_DocumentRead db_documents))
    [ except cls_Exception
        (fun e =>
           raise (HTTPException 500 ("Failed to fetch documents: " ++ str e))) ].

Definition not_found (document_id : Z) : exn :=
  HTTPException 404 ("Document with id " ++ str_int document_id ++ " not found").

(** [GET /documents/{document_id}] (lines 206-240). *)
Definition read_document (document_id : Z) (user : User.t) : M DocumentRead.t :=
  try_except
    (result <- session_execute (select_owned_by_id document_id user) ;;
     match scalars_first result with
     | None => raise (not_found document_id)
     | Some document => ret (to_DocumentRead document)
     end)
    [ except cls_Exception
        (fun e =>
           raise (HTTPException 500 ("Failed to fetch document: " ++ str e))) ].

(** [for key, value in update_data.items(): setattr(db_document, key,
    value)] *)
Fixpoint setattr_all (db_document : Document.t) (update_data : list item)
  : M Document.t :=
  match update_data with
  | [] => ret db_document
  | kv :: rest =>
      db_document <- setattr db_document kv ;;
      setattr_all db_document rest
  end.

(** [PUT /documents/{document_id}] (lines 242-287). *)
Definition update_document
    (document_id : Z) (document_update : DocumentUpdate.t) (user : User.t)
  : M DocumentRead.t :=
  try_except
    (result <- session_execute (select_owned_by_id document_id user) ;;
     match scalars_first result with
     | None => raise (not_found document_id)
     | Some db_document =>
         let update_data := model_dump_exclude_unset document_update in
         db_document <- setattr_all db_document update_data ;;
         session_commit ;;
         db_document <- session_refresh db_document ;;
         ret (to_DocumentRead db_document)
     end)
    [ except cls_HTTPException (fun e => raise e);
      except cls_Exception
        (fun e =>
           session_rollback ;;
           raise (HTTPException 500 ("Failed to update document: " ++ str e))) ].

(** [DELETE /documents/{document_id}] (lines 289-320). *)
Definition delete_document (document_id : Z) (user : User.t) : M string :=
  try_except
    (result <- session_execute (select_owned_by_id document_id user) ;;
     match scalars_first result with
     | None => raise (not_found document_id)
     | Some document =>
         session_delete document ;;
         session_commit ;;
         ret "Document deleted successfully"
     end)
    [ except cls_HTTPException (fun e => raise e);
      except cls_Exception
        (fun e =>
           session_rollback ;;
           raise (HTTPException 500 ("Failed to delete document: " ++ str e))) ].

End Routes.

(** Modelled from the spec: [check_ownership] of
    [app.utils.check_ownership], which is not part of this file.  "All
    document operations must verify the requesting user owns the search
    space"; a caller who does not "fails with an ownership/authorization
    error" that "propagates its own status".  The spec does not give that
    status: 403 is HTTP's status for a refused authorization. *)
Definition check_ownership_model (s : Session) (item_id : Z) (user : User.t)
  : Result SearchSpace.t :=
  match find (fun space =>
                (SearchSpace.id space =? item_id)
                && (SearchSpace.user_id space =? User.id user))
          (searchspaces (database s)) with
  | Some space => Return space
  | None => Raise (HTTPException 403 "Not authorized to access this search space")
  end.

(** ** Ownership and well-formed databases *)

(** The user owns the search space the document refers to. *)
Definition owns (db : Database) (user : User.t) (doc : Document.t) : bool :=
  existsb
    (fun space =>
       (SearchSpace.id space =? Document.search_space_id doc)
       && (SearchSpace.user_id space =? User.id user))
    (searchspaces db).

(** The search space the document refers to belongs to somebody else. *)
Definition foreign (db : Database) (user : User.t) (doc : Document.t) : bool :=
  existsb
    (fun space =>
       (SearchSpace.id space =? Document.search_space_id doc)
       && negb (SearchSpace.user_id space =? User.id user))
    (searchspaces db).

(** [id] is the primary key of both tables. *)
Definition primary_keys (db : Database) : Prop :=
  NoDup (map Document.id (documents db))
  /\ NoDup (map SearchSpace.id (searchspaces db)).

(** A session as a request receives it: nothing pending. *)
Definition fresh (s : Session) : Prop := dirty s = [] /\ deleted s = [].

(** The documents of the user, in table order: the rows of the join that
    pass the filter on [SearchSpace.user_id]. *)
Definition owned_documents (db : Database) (user : User.t) : list Document.t :=
  map fst
    (filter (fun r => SearchSpace.user_id (snd r) =? User.id user)
       (join_SearchSpace db)).

Definition supported (t : DocumentType) : bool :=
  match t with
  | EXTENSION | CRAWLED_URL | YOUTUBE_VIDEO => true
  | FILE | OTHER _ => false
  end.

(** The update the payload asks for, on the attribute values. *)
Definition updated (u : DocumentUpdate.t) (doc : Document.t) : Document.t :=
  fold_left set_attribute (model_dump_exclude_unset u) doc.

(** ** A small installation, for the examples *)

Module Sample.

Definition alice : User.t := {| User.id := 1 |}.
Definition bob : User.t := {| User.id := 2 |}.

Definition doc (pk space : Z) (name : string) : Document.t :=
  {| Document.id := pk; Document.title := name;
     Document.document_type := FILE; Document.document_metadata := "{}";
     Document.content := "text of " ++ name; Document.created_at := 1700000000;
     Document.search_space_id := space |}.

(** Search space 10 is Alice's, 20 is Bob's; Alice has five documents,
    Bob one. *)
Definition db : Database :=
  {| documents := [doc 1 10 "a"; doc 2 10 "b"; doc 3 20 "z"; doc 4 10 "c";
                   doc 5 10 "d"; doc 6 10 "e"];
     searchspaces := [ {| SearchSpace.id := 10; SearchSpace.user_id := 1 |};
                       {| SearchSpace.id := 20; SearchSpace.user_id := 2 |} ] |}.

Definition world : World :=
  {| session := {| database := db; dirty := []; deleted := [] |};
     fastapi_background_tasks := [];
     filesystem := {| files := []; tmp_counter := 0 |};
     logging := [] |}.

Definition good : UploadFile :=
  {| filename := "notes.pdf"; read := Return "%PDF" |}.
Definition broken : UploadFile :=
  {| filename := "torn.docx"; read := Raise (Error "client disconnected") |}.

End Sample.

(** ** Auxiliary notions of the statements *)

(** No document with that id is owned by the requesting user. *)
Definition none_owned (db : Database) (document_id : Z) (user : User.t) : Prop :=
  forall doc, In doc (documents db) -> Document.id doc = document_id ->
              owns db user doc = false.

(** The objects [setattr_all] hands to the session, the latest first. *)
Fixpoint trail (doc : Document.t) (update_data : list item) : list Document.t :=
  match update_data with
  | [] => []
  | kv :: rest => trail (set_attribute doc kv) rest ++ [set_attribute doc kv]
  end.

(** The table after UPDATE ... WHERE id = pk. *)
Definition replace_row (pk : Z) (obj row : Document.t) : Document.t :=
  if has_id pk row then obj else row.

(** The page of the user's documents that starts after the first [skip]
    and holds at most [limit]. *)
Definition page (db : Database) (user : User.t) (skip limit : Z) : list Document.t :=
  firstn (Z.to_nat limit) (skipn (Z.to_nat skip) (owned_documents db user)).

(** The value of an attribute after the update: the one the payload sets,
    or else the prior one. *)
Definition assigned {A : Type} (set : option A) (prior : A) : A :=
  match set with
  | Some value => value
  | None => prior
  end.

Definition title_only (new_title : string) : DocumentUpdate.t :=
  {| DocumentUpdate.title := Some new_title;
     DocumentUpdate.document_type := None;
     DocumentUpdate.document_metadata := None;
     DocumentUpdate.content := None;
     DocumentUpdate.search_space_id := None |}.

Definition move_to (target : Z) : DocumentUpdate.t :=
  {| DocumentUpdate.title := None;
     DocumentUpdate.document_type := None;
     DocumentUpdate.document_metadata := None;
     DocumentUpdate.content := None;
     DocumentUpdate.search_space_id := Some target |}.


(** Every file of the list can be read. *)
Definition readable (upload : list UploadFile) : Prop :=
  Forall (fun file => exists content, read file = Return content) upload.

(** The world after the [try: os.unlink(file_path) except: pass] of
    lines 153-156: the file is gone if it was there, and nothing happens
    if it was not. *)
Definition after_unlink (file_path : string) (w : World) : World :=
  if existsb (at_path file_path) (files (filesystem w)) then
    with_filesystem w
      {| files := filter (fun entry => negb (at_path file_path entry))
                    (files (filesystem w));
         tmp_counter := tmp_counter (filesystem w) |}
  else w.

Module Background.

(** A temporary file is waiting, and the partitioning library refuses
    it. *)
Definition world : World :=
  {| session := session Sample.world;
     fastapi_background_tasks := [];
     filesystem := {| files := [("/tmp/tmp0.pdf", "%PDF")]; tmp_counter := 1 |};
     logging := [] |}.

Definition refusing_loader (_ : FileSystem) (_ : string)
  : Result (list string) :=
  Raise (Error "unsupported file type").

Definition parsing_loader (fs : FileSystem) (path : string)
  : Result (list string) :=
  match find (at_path path) (files fs) with
  | Some entry => Return [snd entry]
  | None => Raise (Error "file not found")
  end.

Definition ingest (_ : string) (_ : list string) (_ : Z) : M unit := ret tt.

End Background.

(** ** The background entry points *)

(** [async_session_maker()]: a session of its own on the same rows, with
    nothing pending. *)
Definition async_session_maker (db : Database) : Session :=
  {| database := db; dirty := []; deleted := [] |}.

(** [async with async_session_maker() as session: body]: the body runs
    with the new session; when the block is left, normally or by an
    exception, the session is closed and what it had not committed is
    dropped. *)
Definition async_with_session {A : Type} (body : M A) : M A :=
  fun w =>
    match body (with_session w (async_session_maker (database (session w)))) with
    | (r, w') =>
        (r, with_session w' (async_session_maker (database (session w'))))
    end.

Module Tasks.

Section EntryPoints.

(** [add_extension_received_document(session, individual_document,
    search_space_id)] and [add_crawled_url_document(session, url,
    search_space_id)] of [app.tasks.background_tasks]. *)
Variable add_extension_received_document : string -> Z -> M unit.
Variable add_crawled_url_document : string -> Z -> M unit.

(** [loader.load()] and [add_received_file_document], as for
    [process_file_in_background]. *)
Variable loader_load : FileSystem -> string -> Result (list string).
Variable add_received_file_document : string -> list string -> Z -> M unit.

(** The builtin [print], which writes to the standard output and can
    raise as any write can. *)
Variable print : string -> M unit.

(** Lines 323-335. *)
Definition process_extension_document_with_new_session
    (individual_document : string) (search_space_id : Z) : M unit :=
  async_with_session
    (try_except
       (add_extension_received_document individual_document search_space_id)
       [ except cls_Exception
           (fun e =>
              logging_error ("Error processing extension document: " ++ str e)) ]).

(** Lines 337-349. *)
Definition process_crawled_url_with_new_session
    (url : string) (search_space_id : Z) : M unit :=
  async_with_session
    (try_except (add_crawled_url_document url search_space_id)
       [ except cls_Exception
           (fun e => logging_error ("Error processing crawled URL: " ++ str e)) ]).

(** Lines 351-360. *)
Definition process_file_in_background_with_new_session
    (file_path filename : string) (search_space_id : Z) : M unit :=
  async_with_session
    (process_file_in_background loader_load add_received_file_document
       file_path filename search_space_id).

(** Lines 362-375. *)
Definition process_youtube_video_with_new_session
    (url : string) (search_space_id : Z) : M unit :=
  async_with_session
    (try_except (print "Processing YouTube video with new session")
       [ except cls_Exception
           (fun e => logging_error ("Error processing YouTube video: " ++ str e)) ]).

End EntryPoints.

End Tasks.

(** Calling a recorded task: the function with the arguments that
    [add_task] was given. *)
Definition call_task
    (add_extension_received_document add_crawled_url_document : string -> Z -> M unit)
    (loader_load : FileSystem -> string -> Result (list string))
    (add_received_file_document : string -> list string -> Z -> M unit)
    (print : string -> M unit) (t : Task) : M unit :=
  match t with
  | process_extension_document_with_new_session individual_document search_space_id =>
      Tasks.process_extension_document_with_new_session
        add_extension_received_document individual_document search_space_id
  | process_crawled_url_with_new_session url search_space_id =>
      Tasks.process_crawled_url_with_new_session
        add_crawled_url_document url search_space_id
  | process_youtube_video_with_new_session url search_space_id =>
      Tasks.process_youtube_video_with_new_session print url search_space_id
  | process_file_in_background_with_new_session file_path filename search_space_id =>
      Tasks.process_file_in_background_with_new_session
        loader_load add_received_file_document file_path filename search_space_id
  end.

(** ** Further notions of the statements *)

(** The task [create_documents] records for one item of the content. *)
Definition scheduled_for (t : DocumentType) (search_space_id : Z) (content_item : string)
  : Task :=
  match t with
  | EXTENSION =>
      process_extension_document_with_new_session content_item search_space_id
  | CRAWLED_URL => process_crawled_url_with_new_session content_item search_space_id
  | _ => process_youtube_video_with_new_session content_item search_space_id
  end.

(** The name [NamedTemporaryFile] gives the file when [counter] names
    have been handed out. *)
Definition temp_name (counter : nat) (suffix : string) : string :=
  "/tmp/tmp" ++ str_int (Z.of_nat counter) ++ suffix.

(** The tasks the upload route records for a list of files, the first
    temporary file being the one numbered [counter]. *)
Fixpoint upload_tasks (counter : nat) (upload : list UploadFile) (search_space_id : Z)
  : list Task :=
  match upload with
  | [] => []
  | file :: rest =>
      process_file_in_background_with_new_session
        (temp_name counter (splitext_ext (filename file)))
        (filename file) search_space_id
      :: upload_tasks (S counter) rest search_space_id
  end.

(** The content of the file at a path, if there is one. *)
Definition content_at (fs : FileSystem) (path : string) : option string :=
  option_map snd (find (at_path path) (files fs)).

(** What [await file.read()] returns for a file that can be read. *)
Definition content_of (file : UploadFile) : string :=
  match read file with
  | Return content => content
  | Raise _ => EmptyString
  end.

(** No character of the string is a dot. *)
Fixpoint no_dot (s : string) : Prop :=
  match s with
  | EmptyString => True
  | String c rest => is_dot c = false /\ no_dot rest
  end.

(** The string is empty or starts with a dot. *)
Definition dot_or_empty (s : string) : Prop :=
  match s with
  | EmptyString => True
  | String c _ => is_dot c = true
  end.

(** The first file of the list that cannot be read splits the list. *)
Fixpoint first_unreadable (upload : list UploadFile)
  : option (list UploadFile * UploadFile * exn * list UploadFile) :=
  match upload with
  | [] => None
  | file :: rest =>
      match read file with
      | Raise e => Some ([], file, e, rest)
      | Return _ =>
          match first_unreadable rest with
          | Some (before, failing, e, after) => Some (file :: before, failing, e, after)
          | None => None
          end
      end
  end.

(** A request to crawl a list of URLs. *)
Definition crawl_request (urls : list string) (search_space_id : Z)
  : DocumentsCreate.t :=
  {| DocumentsCreate.document_type := CRAWLED_URL;
     DocumentsCreate.content := urls;
     DocumentsCreate.search_space_id := search_space_id |}.

(** An ingestion routine for crawled URLs that always fails. *)
Definition unreachable (_ : string) (_ : Z) : M unit :=
  raise (Error "connection refused").

(** Ingestion routines and a [print] that do nothing. *)
Definition idle (_ : string) (_ : Z) : M unit := ret tt.
Definition silent (_ : string) : M unit := ret tt.

(** The user owns the search space of that id. *)
Definition owns_space (db : Database) (user : User.t) (space_id : Z) : bool :=
  existsb
    (fun space =>
       (SearchSpace.id space =? space_id)
       && (SearchSpace.user_id space =? User.id user))
    (searchspaces db).

(** The payload that sets no field. *)
Definition nothing_set : DocumentUpdate.t :=
  {| DocumentUpdate.title := None;
     DocumentUpdate.document_type := None;
     DocumentUpdate.document_metadata := None;
     DocumentUpdate.content := None;
     DocumentUpdate.search_space_id := None |}.

(** * Properties *)

(** ** The model on the sample installation *)

Example splitext_ext_archive : splitext_ext "uploads/v1.2/report.tar.gz" = ".gz".
Proof. reflexivity. Qed.

Example splitext_ext_hidden : splitext_ext ".bashrc" = EmptyString.
Proof. reflexivity. Qed.

Example splitext_ext_dotted_directory : splitext_ext "dir.d/file" = EmptyString.
Proof. reflexivity. Qed.

Example str_int_negative : str_int (-12) = "-12".
Proof. reflexivity. Qed.

Example read_documents_negative_skip :
  fst (read_documents (Some (-1)) None Sample.alice Sample.world)
  = Raise (HTTPException 500
             "Failed to fetch documents: OFFSET must not be negative").
Proof. reflexivity. Qed.

Example create_documents_crawled_urls :
  fastapi_background_tasks
    (snd (create_documents check_ownership_model
            {| DocumentsCreate.document_type := CRAWLED_URL;
               DocumentsCreate.content := ["https://a.example"; "https://b.example"];
               DocumentsCreate.search_space_id := 10 |}
            Sample.alice Sample.world))
  = [process_crawled_url_with_new_session "https://a.example" 10;
     process_crawled_url_with_new_session "https://b.example" 10].
Proof. reflexivity. Qed.

Example fileupload_two_files :
  create_documents_fileupload check_ownership_model
    [Sample.good; Sample.good] 10 Sample.alice Sample.world
  = (Return "Files uploaded for processing",
     {| session := session Sample.world;
        fastapi_background_tasks :=
          [process_file_in_background_with_new_session
             "/tmp/tmp0.pdf" "notes.pdf" 10;
           process_file_in_background_with_new_session
             "/tmp/tmp1.pdf" "notes.pdf" 10];
        filesystem :=
          {| files := [("/tmp/tmp1.pdf", "%PDF"); ("/tmp/tmp0.pdf", "%PDF")];
             tmp_counter := 2 |};
        logging := [] |}).
Proof. reflexivity. Qed.

Example delete_document_owned :
  map Document.id
    (documents (database (session
       (snd (delete_document 2 Sample.alice Sample.world)))))
  = [1; 3; 4; 5; 6].
Proof. reflexivity. Qed.

(** ** The rows a statement selects *)

Lemma join_SearchSpace_In (db : Database) (doc : Document.t) (space : SearchSpace.t) :
  In (doc, space) (join_SearchSpace db) <->
  In doc (documents db) /\ In space (searchspaces db)
  /\ SearchSpace.id space = Document.search_space_id doc.
Proof.
  unfold join_SearchSpace. rewrite in_flat_map. split.
  - intros (d & Hd & Hin). apply in_map_iff in Hin.
    destruct Hin as (s & Heq & Hs). inversion Heq; subst.
    apply filter_In in Hs. destruct Hs as [Hs Hk].
    apply Z.eqb_eq in Hk. auto.
  - intros (Hd & Hs & Hk). exists doc. split; [assumption|].
    apply in_map. apply filter_In. split; [assumption|].
    now apply Z.eqb_eq.
Qed.

Lemma rows_In (db : Database) (q : Select) (doc : Document.t) :
  In doc (rows db q) <->
  exists space, In doc (documents db) /\ In space (searchspaces db)
                /\ SearchSpace.id space = Document.search_space_id doc
                /\ criteria q doc space = true.
Proof.
  unfold rows. rewrite in_map_iff. split.
  - intros ([d s] & Heq & Hin). simpl in Heq. subst d.
    apply filter_In in Hin. destruct Hin as [Hin Hc]. simpl in Hc.
    apply join_SearchSpace_In in Hin. exists s. tauto.
  - intros (s & Hd & Hs & Hk & Hc). exists (doc, s). split; [reflexivity|].
    apply filter_In. split; [|assumption].
    apply join_SearchSpace_In. auto.
Qed.

Lemma owns_true (db : Database) (user : User.t) (doc : Document.t) :
  owns db user doc = true <->
  exists space, In space (searchspaces db)
                /\ SearchSpace.id space = Document.search_space_id doc
                /\ SearchSpace.user_id space = User.id user.
Proof.
  unfold owns. rewrite existsb_exists. split.
  - intros (s & Hs & Hb). apply andb_true_iff in Hb. destruct Hb as [H1 H2].
    apply Z.eqb_eq in H1. apply Z.eqb_eq in H2. eauto.
  - intros (s & Hs & H1 & H2). exists s. split; [assumption|].
    apply andb_true_iff. split; now apply Z.eqb_eq.
Qed.

Lemma rows_by_id_In (db : Database) (document_id : Z) (user : User.t)
    (doc : Document.t) :
  In doc (rows db (select_owned_by_id document_id user)) <->
  In doc (documents db) /\ Document.id doc = document_id
  /\ owns db user doc = true.
Proof.
  rewrite rows_In, owns_true. simpl. split.
  - intros (s & Hd & Hs & Hk & Hc). apply andb_true_iff in Hc.
    destruct Hc as [H1 H2]. apply Z.eqb_eq in H1. apply Z.eqb_eq in H2.
    eauto 6.
  - intros (Hd & Hi & s & Hs & Hk & Hu). exists s.
    repeat split; try assumption.
    apply andb_true_iff. split; now apply Z.eqb_eq.
Qed.

Lemma none_owned_rows (db : Database) (document_id : Z) (user : User.t) :
  none_owned db document_id user <->
  rows db (select_owned_by_id document_id user) = [].
Proof.
  split.
  - intros Hnone.
    destruct (rows db (select_owned_by_id document_id user)) as [|doc rest] eqn:E;
      [reflexivity|].
    assert (Hin : In doc (rows db (select_owned_by_id document_id user)))
      by (rewrite E; apply in_eq).
    apply rows_by_id_In in Hin. destruct Hin as (Hd & Hi & Ho).
    rewrite (Hnone doc Hd Hi) in Ho. discriminate.
  - intros Hnil doc Hd Hi. destruct (owns db user doc) eqn:Ho; [|reflexivity].
    assert (Hin : In doc (rows db (select_owned_by_id document_id user)))
      by (apply rows_by_id_In; auto).
    rewrite Hnil in Hin. contradiction.
Qed.

Lemma execute_by_id (document_id : Z) (user : User.t) (w : World) :
  session_execute (select_owned_by_id document_id user) w
  = (Return (rows (database (session w)) (select_owned_by_id document_id user)), w).
Proof. reflexivity. Qed.

(** ** Requests for a document the user does not own *)

Lemma read_document_run (document_id : Z) (user : User.t) (w : World) :
  read_document document_id user w
  = match scalars_first (rows (database (session w))
                           (select_owned_by_id document_id user)) with
    | Some document => (Return (to_DocumentRead document), w)
    | None =>
        (Raise (HTTPException 500
                  ("Failed to fetch document: " ++ str (not_found document_id))), w)
    end.
Proof.
  unfold read_document, try_except, bind. rewrite execute_by_id.
  destruct (scalars_first _); reflexivity.
Qed.

Lemma update_document_missing (document_id : Z) (document_update : DocumentUpdate.t)
    (user : User.t) (w : World) :
  rows (database (session w)) (select_owned_by_id document_id user) = [] ->
  update_document document_id document_update user w
  = (Raise (not_found document_id), w).
Proof.
  intros Hrows. unfold update_document, try_except, bind.
  rewrite execute_by_id, Hrows. reflexivity.
Qed.

Lemma delete_document_missing (document_id : Z) (user : User.t) (w : World) :
  rows (database (session w)) (select_owned_by_id document_id user) = [] ->
  delete_document document_id user w = (Raise (not_found document_id), w).
Proof.
  intros Hrows. unfold delete_document, try_except, bind.
  rewrite execute_by_id, Hrows. reflexivity.
Qed.

(** C2, as the code has it: when the user owns no document with the id,
    [read_document] raises the 404 inside its [try], the only clause,
    [except Exception], catches it, and the request ends with status 500
    and the 404 quoted in the detail.  The session is left as it was.  The
    same request to [update_document] or [delete_document], which have the
    clause [except HTTPException: raise], ends with the 404. *)
Theorem C2_read_document_missing_gives_500 :
  forall (document_id : Z) (user : User.t) (w : World),
    none_owned (database (session w)) document_id user ->
    read_document document_id user w
    = (Raise (HTTPException 500
                ("Failed to fetch document: 404: Document with id "
                 ++ str_int document_id ++ " not found")), w)
    /\ (forall document_update,
           update_document document_id document_update user w
           = (Raise (HTTPException 404
                       ("Document with id " ++ str_int document_id
                        ++ " not found")), w))
    /\ delete_document document_id user w
       = (Raise (HTTPException 404
                   ("Document with id " ++ str_int document_id ++ " not found")),
          w).
Proof.
  intros document_id user w Hnone.
  apply none_owned_rows in Hnone. split; [|split].
  - rewrite read_document_run, Hnone. reflexivity.
  - intros document_update.
    exact (update_document_missing document_id document_update user w Hnone).
  - exact (delete_document_missing document_id user w Hnone).
Qed.

Lemma C2_read_document_missing_gives_500_witness :
  none_owned Sample.db 3 Sample.alice
  /\ read_document 3 Sample.alice Sample.world
     = (Raise (HTTPException 500
                 "Failed to fetch document: 404: Document with id 3 not found"),
        Sample.world).
Proof.
  assert (H : none_owned Sample.db 3 Sample.alice).
  { apply none_owned_rows. reflexivity. }
  split; [exact H|].
  exact (proj1 (C2_read_document_missing_gives_500 3 Sample.alice Sample.world H)).
Defined.



(** ** Requests that are refused before anything is scheduled *)

(** What [create_documents] does when the ownership check raises. *)
Lemma create_documents_not_owner
    (check_ownership : Session -> Z -> User.t -> Result SearchSpace.t)
    (request : DocumentsCreate.t) (user : User.t) (w : World) (e : exn) :
  check_ownership (session w) (DocumentsCreate.search_space_id request) user
  = Raise e ->
  create_documents check_ownership request user w
  = match e with
    | HTTPException _ _ => (Raise e, w)
    | Error message =>
        (Raise (HTTPException 500 ("Failed to process documents: " ++ message)),
         with_session w
           {| database := database (session w); dirty := []; deleted := [] |})
    end.
Proof.
  intros Hc. unfold create_documents, try_except, bind, await_check_ownership.
  rewrite Hc. destruct e; reflexivity.
Qed.

Lemma create_documents_fileupload_not_owner
    (check_ownership : Session -> Z -> User.t -> Result SearchSpace.t)
    (upload : list UploadFile) (search_space_id : Z) (user : User.t)
    (w : World) (e : exn) :
  check_ownership (session w) search_space_id user = Raise e ->
  create_documents_fileupload check_ownership upload search_space_id user w
  = match e with
    | HTTPException _ _ => (Raise e, w)
    | Error message =>
        (Raise (HTTPException 500 ("Failed to upload files: " ++ message)),
         with_session w
           {| database := database (session w); dirty := []; deleted := [] |})
    end.
Proof.
  intros Hc.
  unfold create_documents_fileupload, try_except, bind, await_check_ownership.
  rewrite Hc. destruct e; reflexivity.
Qed.







(** ** Lists *)

Lemma find_over_app {A : Type} (f : A -> bool) (l1 l2 : list A) :
  find f (l1 ++ l2)
  = match find f l1 with
    | Some x => Some x
    | None => find f l2
    end.
Proof.
  induction l1 as [|a l1 IH]; simpl; [reflexivity|].
  destruct (f a); [reflexivity | exact IH].
Qed.

Lemma In_firstn {A : Type} (n : nat) (l : list A) (x : A) :
  In x (firstn n l) -> In x l.
Proof.
  intros H. rewrite <- (firstn_skipn n l). apply in_or_app. now left.
Qed.

Lemma In_skipn {A : Type} (n : nat) (l : list A) (x : A) :
  In x (skipn n l) -> In x l.
Proof.
  intros H. rewrite <- (firstn_skipn n l). apply in_or_app. now right.
Qed.

Lemma same_key_same_row {A : Type} (key : A -> Z) (l : list A) (a b : A) :
  NoDup (map key l) -> In a l -> In b l -> key a = key b -> a = b.
Proof.
  induction l as [|x l IH]; simpl; intros Hnd Ha Hb Hk; [contradiction|].
  apply NoDup_cons_iff in Hnd. destruct Hnd as [Hx Hnd].
  destruct Ha as [Ha|Ha], Hb as [Hb|Hb]; subst.
  - reflexivity.
  - exfalso. apply Hx. rewrite Hk. now apply in_map.
  - exfalso. apply Hx. rewrite <- Hk. now apply in_map.
  - now apply IH.
Qed.

(** ** What an update and a deletion do to the table *)

Lemma set_attribute_id (doc : Document.t) (kv : item) :
  Document.id (set_attribute doc kv) = Document.id doc.
Proof. destruct kv; reflexivity. Qed.

Lemma set_attribute_created_at (doc : Document.t) (kv : item) :
  Document.created_at (set_attribute doc kv) = Document.created_at doc.
Proof. destruct kv; reflexivity. Qed.

Lemma fold_set_attribute_id (update_data : list item) (doc : Document.t) :
  Document.id (fold_left set_attribute update_data doc) = Document.id doc.
Proof.
  revert doc. induction update_data as [|kv rest IH]; intros doc; simpl;
    [reflexivity|].
  rewrite IH. apply set_attribute_id.
Qed.

Lemma setattr_all_run (update_data : list item) (doc : Document.t) (w : World) :
  setattr_all doc update_data w
  = (Return (fold_left set_attribute update_data doc),
     with_session w
       {| database := database (session w);
          dirty := trail doc update_data ++ dirty (session w);
          deleted := deleted (session w) |}).
Proof.
  revert doc w. induction update_data as [|kv rest IH]; intros doc w.
  - destruct w as [[db di de] ts fs lg]. reflexivity.
  - simpl. unfold bind, setattr. rewrite IH.
    simpl. rewrite <- app_assoc. reflexivity.
Qed.

Lemma find_trail (pk : Z) (update_data : list item) (doc : Document.t) :
  find (has_id pk) (trail doc update_data)
  = if Document.id doc =? pk
    then match update_data with
         | [] => None
         | _ :: _ => Some (fold_left set_attribute update_data doc)
         end
    else None.
Proof.
  revert doc. induction update_data as [|kv rest IH]; intros doc.
  - simpl. destruct (Document.id doc =? pk); reflexivity.
  - simpl trail. rewrite find_over_app, IH. rewrite set_attribute_id.
    simpl. unfold has_id. rewrite set_attribute_id.
    destruct (Document.id doc =? pk); [|reflexivity].
    destruct rest; reflexivity.
Qed.

Lemma flush_after_setattr (db : Database) (old : Document.t)
    (update_data : list item) :
  NoDup (map Document.id (documents db)) ->
  In old (documents db) ->
  map (flush_row (trail old update_data)) (documents db)
  = map (replace_row (Document.id old) (fold_left set_attribute update_data old))
      (documents db).
Proof.
  intros Hnd Hold. apply map_ext_in. intros row Hrow.
  unfold flush_row, replace_row. rewrite find_trail. unfold has_id.
  rewrite (Z.eqb_sym (Document.id row)).
  destruct (Document.id old =? Document.id row) eqn:E; [|reflexivity].
  apply Z.eqb_eq in E.
  assert (row = old)
    by (apply (same_key_same_row Document.id (documents db)); auto).
  subst row. destruct update_data; reflexivity.
Qed.

Lemma find_replaced (obj old : Document.t) (l : list Document.t) :
  In old l -> Document.id obj = Document.id old ->
  find (has_id (Document.id old)) (map (replace_row (Document.id old) obj) l)
  = Some obj.
Proof.
  intros Hin Hid. induction l as [|row l IH]; simpl in *; [contradiction|].
  assert (Ho : has_id (Document.id old) obj = true)
    by (unfold has_id; rewrite Hid; apply Z.eqb_refl).
  unfold replace_row at 1 2.
  destruct (has_id (Document.id old) row) eqn:E.
  - rewrite Ho. reflexivity.
  - rewrite E. apply IH. destruct Hin as [Heq|Hin]; [|assumption].
    subst row. unfold has_id in E. rewrite Z.eqb_refl in E. discriminate.
Qed.

Lemma update_document_run (document_id : Z) (document_update : DocumentUpdate.t)
    (user : User.t) (w : World) (old : Document.t) (rest : list Document.t) :
  primary_keys (database (session w)) ->
  fresh (session w) ->
  rows (database (session w)) (select_owned_by_id document_id user) = old :: rest ->
  update_document document_id document_update user w
  = (Return (to_DocumentRead (updated document_update old)),
     with_session w
       {| database :=
            {| documents :=
                 map (replace_row (Document.id old) (updated document_update old))
                   (documents (database (session w)));
               searchspaces := searchspaces (database (session w)) |};
          dirty := [];
          deleted := [] |}).
Proof.
  intros [Hnd _] [Hdirty Hdeleted] Hrows.
  assert (Hold : In old (documents (database (session w)))).
  { apply (rows_by_id_In _ document_id user). rewrite Hrows. apply in_eq. }
  unfold update_document, try_except, bind. rewrite execute_by_id, Hrows.
  change (scalars_first (old :: rest)) with (Some old). cbv beta iota.
  rewrite setattr_all_run.
  unfold session_commit, session_refresh, flush. simpl.
  rewrite Hdirty, Hdeleted, app_nil_r.
  unfold is_deleted. simpl. rewrite filter_true.
  rewrite (flush_after_setattr _ old _ Hnd Hold).
  rewrite fold_set_attribute_id.
  unfold updated.
  rewrite (find_replaced _ old _ Hold (fold_set_attribute_id _ old)).
  reflexivity.
Qed.

Lemma delete_document_run (document_id : Z) (user : User.t) (w : World)
    (old : Document.t) (rest : list Document.t) :
  fresh (session w) ->
  rows (database (session w)) (select_owned_by_id document_id user) = old :: rest ->
  delete_document document_id user w
  = (Return "Document deleted successfully",
     with_session w
       {| database :=
            {| documents :=
                 filter (fun row => negb (has_id (Document.id old) row))
                   (documents (database (session w)));
               searchspaces := searchspaces (database (session w)) |};
          dirty := [];
          deleted := [] |}).
Proof.
  intros [Hdirty Hdeleted] Hrows.
  unfold delete_document, try_except, bind. rewrite execute_by_id, Hrows.
  change (scalars_first (old :: rest)) with (Some old). cbv beta iota.
  unfold session_delete, session_commit, flush. simpl.
  rewrite Hdirty, Hdeleted. unfold flush_row. simpl. rewrite map_id.
  rewrite (filter_ext
             (fun row => negb (is_deleted [Document.id old] row))
             (fun row => negb (has_id (Document.id old) row))).
  - reflexivity.
  - intros row. unfold is_deleted, has_id. simpl.
    rewrite orb_false_r. reflexivity.
Qed.

(** ** Listing *)


Lemma read_documents_returns (skip limit : option Z) (user : User.t)
    (w w' : World) (out : list DocumentRead.t) :
  read_documents skip limit user w = (Return out, w') ->
  w' = w
  /\ out = map to_DocumentRead
             (page (database (session w)) user (default 0 skip) (default 300 limit)).
Proof.
  unfold read_documents, try_except, bind, session_execute. simpl.
  destruct (default 0 skip <? 0); [discriminate|].
  destruct (default 300 limit <? 0); [discriminate|].
  intros H. inversion H. split; reflexivity.
Qed.

Lemma owned_documents_In (db : Database) (user : User.t) (doc : Document.t) :
  In doc (owned_documents db user) <->
  In doc (documents db) /\ owns db user doc = true.
Proof.
  change (owned_documents db user) with (rows db (select_owned user 0 0)).
  rewrite rows_In, owns_true. simpl. split.
  - intros (s & Hd & Hs & Hk & Hc). apply Z.eqb_eq in Hc. eauto 6.
  - intros (Hd & s & Hs & Hk & Hu). exists s. repeat split; try assumption.
    now apply Z.eqb_eq.
Qed.

Lemma page_In (db : Database) (user : User.t) (skip limit : Z) (doc : Document.t) :
  In doc (page db user skip limit) ->
  In doc (documents db) /\ owns db user doc = true.
Proof.
  intros H. apply owned_documents_In.
  unfold page in H. apply In_firstn in H. apply In_skipn in H. exact H.
Qed.

(** ** Tenant isolation *)

Lemma owned_not_foreign (db : Database) (user : User.t) (doc : Document.t) :
  NoDup (map SearchSpace.id (searchspaces db)) ->
  owns db user doc = true -> foreign db user doc = false.
Proof.
  intros Hnd Ho. apply owns_true in Ho. destruct Ho as (s & Hs & Hk & Hu).
  destruct (foreign db user doc) eqn:Hf; [|reflexivity].
  unfold foreign in Hf. apply existsb_exists in Hf.
  destruct Hf as (s' & Hs' & Hb). apply andb_true_iff in Hb.
  destruct Hb as [Hk' Hu']. apply Z.eqb_eq in Hk'.
  assert (s = s')
    by (apply (same_key_same_row SearchSpace.id (searchspaces db)); congruence).
  subst s'. rewrite Hu, Z.eqb_refl in Hu'. discriminate.
Qed.

Lemma replace_row_other (pk : Z) (obj row : Document.t) :
  Document.id row <> pk -> replace_row pk obj row = row.
Proof.
  intros Hne. unfold replace_row, has_id.
  destruct (Z.eqb_spec (Document.id row) pk); [contradiction | reflexivity].
Qed.

(** A row the user does not own has another primary key than the rows
    the statement selects for the user. *)
Lemma not_owned_other_id (db : Database) (document_id : Z) (user : User.t)
    (old doc : Document.t) :
  NoDup (map Document.id (documents db)) ->
  In old (rows db (select_owned_by_id document_id user)) ->
  In doc (documents db) -> owns db user doc = false ->
  Document.id doc <> Document.id old.
Proof.
  intros Hnd Hold Hdoc Hno Heq.
  apply rows_by_id_In in Hold. destruct Hold as (Hin & _ & Ho).
  assert (doc = old)
    by (apply (same_key_same_row Document.id (documents db)); auto).
  subst doc. rewrite Ho in Hno. discriminate.
Qed.

(** C1: the statements of the four routes join [SearchSpace] and carry
    the filter [SearchSpace.user_id == user.id]; the list and the
    single-document read return only documents of the table whose search
    space is the user's and nobody else's, and leave the world as it was;
    an update or a deletion, however it ends, leaves every row the user
    does not own in the table as it was. *)
Theorem C1_tenant_isolation :
  forall (user : User.t) (w : World),
    primary_keys (database (session w)) ->
    fresh (session w) ->
    (forall skip limit doc space,
        criteria (select_owned user skip limit) doc space = true ->
        SearchSpace.user_id space = User.id user)
    /\ (forall document_id doc space,
           criteria (select_owned_by_id document_id user) doc space = true ->
           Document.id doc = document_id
           /\ SearchSpace.user_id space = User.id user)
    /\ (forall skip limit out w',
           read_documents skip limit user w = (Return out, w') ->
           w' = w
           /\ forall r, In r out ->
                exists doc, In doc (documents (database (session w)))
                            /\ r = to_DocumentRead doc
                            /\ owns (database (session w)) user doc = true
                            /\ foreign (database (session w)) user doc = false)
    /\ (forall document_id r w',
           read_document document_id user w = (Return r, w') ->
           w' = w
           /\ exists doc, In doc (documents (database (session w)))
                          /\ r = to_DocumentRead doc
                          /\ owns (database (session w)) user doc = true
                          /\ foreign (database (session w)) user doc = false)
    /\ (forall document_id document_update out w',
           update_document document_id document_update user w = (out, w') ->
           forall doc, In doc (documents (database (session w))) ->
                       owns (database (session w)) user doc = false ->
                       In doc (documents (database (session w'))))
    /\ (forall document_id out w',
           delete_document document_id user w = (out, w') ->
           forall doc, In doc (documents (database (session w))) ->
                       owns (database (session w)) user doc = false ->
                       In doc (documents (database (session w')))).
Proof.
  intros user w Hpk Hfresh. pose proof Hpk as [Hdocs Hspaces].
  split; [|split; [|split; [|split; [|split]]]].
  - intros skip limit doc space Hc. simpl in Hc. now apply Z.eqb_eq in Hc.
  - intros document_id doc space Hc. simpl in Hc. apply andb_true_iff in Hc.
    destruct Hc as [H1 H2]. apply Z.eqb_eq in H1. apply Z.eqb_eq in H2. auto.
  - intros skip limit out w' Hrun.
    apply read_documents_returns in Hrun. destruct Hrun as [Hw Hout].
    split; [exact Hw|]. intros r Hr. subst out.
    apply in_map_iff in Hr. destruct Hr as (doc & Hr & Hin).
    apply page_In in Hin. destruct Hin as [Hin Ho].
    exists doc. repeat split; auto using owned_not_foreign.
  - intros document_id r w' Hrun. rewrite read_document_run in Hrun.
    destruct (rows (database (session w)) (select_owned_by_id document_id user))
      as [|doc rest] eqn:E; simpl in Hrun; [discriminate|].
    injection Hrun as Hr Hw. subst r. split; [now symmetry|].
    assert (Hin : In doc (rows (database (session w))
                            (select_owned_by_id document_id user)))
      by (rewrite E; apply in_eq).
    apply rows_by_id_In in Hin. destruct Hin as (Hin & _ & Ho).
    exists doc. repeat split; auto using owned_not_foreign.
  - intros document_id document_update out w' Hrun doc Hdoc Hno.
    destruct (rows (database (session w)) (select_owned_by_id document_id user))
      as [|old rest] eqn:E.
    + rewrite (update_document_missing _ _ _ _ E) in Hrun.
      injection Hrun as _ Hw. rewrite <- Hw. exact Hdoc.
    + rewrite (update_document_run _ _ _ _ old rest Hpk Hfresh E) in Hrun.
      injection Hrun as _ Hw. rewrite <- Hw. simpl.
      apply in_map_iff. exists doc. split; [|exact Hdoc].
      apply replace_row_other.
      apply (not_owned_other_id (database (session w)) document_id user); auto.
      rewrite E. apply in_eq.
  - intros document_id out w' Hrun doc Hdoc Hno.
    destruct (rows (database (session w)) (select_owned_by_id document_id user))
      as [|old rest] eqn:E.
    + rewrite (delete_document_missing _ _ _ E) in Hrun.
      injection Hrun as _ Hw. rewrite <- Hw. exact Hdoc.
    + rewrite (delete_document_run _ _ _ old rest Hfresh E) in Hrun.
      injection Hrun as _ Hw. rewrite <- Hw. simpl.
      apply filter_In. split; [exact Hdoc|].
      apply negb_true_iff. unfold has_id. apply Z.eqb_neq.
      apply (not_owned_other_id (database (session w)) document_id user); auto.
      rewrite E. apply in_eq.
Qed.

Lemma Sample_primary_keys : primary_keys Sample.db.
Proof.
  split; simpl; repeat (constructor; [simpl; intuition discriminate|]);
    constructor.
Qed.

Lemma Sample_fresh : fresh (session Sample.world).
Proof. split; reflexivity. Qed.

Lemma C1_tenant_isolation_witness :
  primary_keys (database (session Sample.world))
  /\ fresh (session Sample.world)
  /\ In (Sample.doc 3 20 "z")
       (documents (database (session
          (snd (delete_document 1 Sample.alice Sample.world))))).
Proof.
  split; [exact Sample_primary_keys|]. split; [exact Sample_fresh|].
  destruct (C1_tenant_isolation Sample.alice Sample.world
              Sample_primary_keys Sample_fresh)
    as (_ & _ & _ & _ & _ & Hdelete).
  apply (Hdelete 1 (fst (delete_document 1 Sample.alice Sample.world))).
  - apply surjective_pairing.
  - simpl. tauto.
  - reflexivity.
Defined.

(** ** Partial update *)

Lemma updated_attributes (u : DocumentUpdate.t) (doc : Document.t) :
  updated u doc
  = {| Document.id := Document.id doc;
       Document.title := assigned (DocumentUpdate.title u) (Document.title doc);
       Document.document_type :=
         assigned (DocumentUpdate.document_type u) (Document.document_type doc);
       Document.document_metadata :=
         assigned (DocumentUpdate.document_metadata u)
           (Document.document_metadata doc);
       Document.content :=
         assigned (DocumentUpdate.content u) (Document.content doc);
       Document.created_at := Document.created_at doc;
       Document.search_space_id :=
         assigned (DocumentUpdate.search_space_id u)
           (Document.search_space_id doc) |}.
Proof.
  destruct u as [[t|] [ty|] [m|] [c|] [s|]]; destruct doc; reflexivity.
Qed.

Lemma update_document_returns (document_id : Z) (document_update : DocumentUpdate.t)
    (user : User.t) (w w' : World) (r : DocumentRead.t) :
  primary_keys (database (session w)) ->
  fresh (session w) ->
  update_document document_id document_update user w = (Return r, w') ->
  exists old,
    In old (documents (database (session w)))
    /\ Document.id old = document_id
    /\ owns (database (session w)) user old = true
    /\ r = to_DocumentRead (updated document_update old)
    /\ documents (database (session w'))
       = map (replace_row document_id (updated document_update old))
           (documents (database (session w)))
    /\ searchspaces (database (session w')) = searchspaces (database (session w)).
Proof.
  intros Hpk Hfresh Hrun.
  destruct (rows (database (session w)) (select_owned_by_id document_id user))
    as [|old rest] eqn:E.
  - rewrite (update_document_missing _ _ _ _ E) in Hrun. discriminate.
  - rewrite (update_document_run _ _ _ _ old rest Hpk Hfresh E) in Hrun.
    injection Hrun as Hr Hw.
    assert (Hin : In old (rows (database (session w))
                            (select_owned_by_id document_id user)))
      by (rewrite E; apply in_eq).
    apply rows_by_id_In in Hin. destruct Hin as (Hin & Hid & Ho).
    exists old. rewrite <- Hw, <- Hr, <- Hid. simpl. auto 7.
Qed.

(** C6: after a successful PUT the answer and the stored row are the
    prior row of that id with exactly the attributes the payload sets
    replaced by the payload's values: an attribute the payload leaves
    unset ([None]) keeps its prior value, [id] and [created_at] always do,
    and every other row of the table is as before. *)
Theorem C6_update_assigns_only_set_fields :
  forall (document_id : Z) (document_update : DocumentUpdate.t) (user : User.t)
         (w w' : World) (r : DocumentRead.t),
    primary_keys (database (session w)) ->
    fresh (session w) ->
    update_document document_id document_update user w = (Return r, w') ->
    exists old stored,
      In old (documents (database (session w)))
      /\ Document.id old = document_id
      /\ r = to_DocumentRead stored
      /\ find (has_id document_id) (documents (database (session w'))) = Some stored
      /\ documents (database (session w'))
         = map (fun row => if Document.id row =? document_id then stored else row)
             (documents (database (session w)))
      /\ Document.id stored = Document.id old
      /\ Document.created_at stored = Document.created_at old
      /\ Document.title stored
         = assigned (DocumentUpdate.title document_update) (Document.title old)
      /\ Document.document_type stored
         = assigned (DocumentUpdate.document_type document_update)
             (Document.document_type old)
      /\ Document.document_metadata stored
         = assigned (DocumentUpdate.document_metadata document_update)
             (Document.document_metadata old)
      /\ Document.content stored
         = assigned (DocumentUpdate.content document_update) (Document.content old)
      /\ Document.search_space_id stored
         = assigned (DocumentUpdate.search_space_id document_update)
             (Document.search_space_id old).
Proof.
  intros document_id document_update user w w' r Hpk Hfresh Hrun.
  destruct (update_document_returns _ _ _ _ _ _ Hpk Hfresh Hrun)
    as (old & Hin & Hid & _ & Hr & Hdocs & _).
  exists old, (updated document_update old).
  split; [exact Hin|]. split; [exact Hid|]. split; [exact Hr|].
  split.
  { rewrite Hdocs, <- Hid. apply find_replaced; [exact Hin|].
    unfold updated. apply fold_set_attribute_id. }
  split; [exact Hdocs|].
  rewrite updated_attributes. simpl. repeat split; reflexivity.
Qed.

Lemma C6_update_assigns_only_set_fields_witness :
  primary_keys (database (session Sample.world))
  /\ fresh (session Sample.world)
  /\ fst (update_document 2 (title_only "renamed") Sample.alice Sample.world)
     = Return (to_DocumentRead
                 {| Document.id := 2; Document.title := "renamed";
                    Document.document_type := FILE;
                    Document.document_metadata := "{}";
                    Document.content := "text of b";
                    Document.created_at := 1700000000;
                    Document.search_space_id := 10 |})
  /\ exists old stored,
       In old (documents Sample.db)
       /\ find (has_id 2)
            (documents (database (session
               (snd (update_document 2 (title_only "renamed")
                       Sample.alice Sample.world)))))
          = Some stored
       /\ Document.content stored = Document.content old.
Proof.
  split; [exact Sample_primary_keys|]. split; [exact Sample_fresh|].
  split; [reflexivity|].
  destruct (C6_update_assigns_only_set_fields 2 (title_only "renamed")
              Sample.alice Sample.world
              (snd (update_document 2 (title_only "renamed")
                      Sample.alice Sample.world))
              _ Sample_primary_keys Sample_fresh eq_refl)
    as (old & stored & Hin & _ & _ & Hfind & _ & _ & _ & _ & _ & _ & Hc & _).
  exists old, stored. auto.
Defined.

(** ** Moving a document to another search space *)



(** ** Pages *)

Section KeyedLists.

Context {A : Type} (key : A -> Z).



Lemma NoDup_keys_filter (p : A -> bool) (l : list A) :
  NoDup (map key l) -> NoDup (map key (filter p l)).
Proof.
  induction l as [|x l IH]; simpl; intros Hnd; [constructor|].
  apply NoDup_cons_iff in Hnd. destruct Hnd as [Hx Hnd].
  destruct (p x); simpl; [|auto].
  constructor; [|auto].
  intros Hin. apply Hx. apply in_map_iff in Hin.
  destruct Hin as (y & Hy & Hin). apply filter_In in Hin.
  apply in_map_iff. exists y. tauto.
Qed.



End KeyedLists.









(** ** Staging uploaded files *)

Lemma for_each_app {A : Type} (l1 l2 : list A) (body : A -> M unit) (w : World) :
  for_each (l1 ++ l2) body w
  = match for_each l1 body w with
    | (Return _, w1) => for_each l2 body w1
    | (Raise e, w1) => (Raise e, w1)
    end.
Proof.
  revert w. induction l1 as [|x l1 IH]; intros w; simpl; [reflexivity|].
  unfold bind. destruct (body x w) as [[[]|e] w1]; [apply IH | reflexivity].
Qed.


Lemma stage_or_422_fails (search_space_id : Z) (file : UploadFile)
    (e : exn) (w : World) :
  read file = Raise e ->
  stage_or_422 search_space_id file w
  = (Raise (HTTPException 422
              ("Failed to process file " ++ filename file ++ ": " ++ str e)),
     snd (NamedTemporaryFile (splitext_ext (filename file)) w)).
Proof.
  intros Hread.
  unfold stage_or_422, try_except, stage_file, bind, NamedTemporaryFile, lift.
  rewrite Hread. simpl. destruct e; reflexivity.
Qed.





(** ** The background routine for an uploaded file *)

Lemma unlink_swallowed (file_path : string) (w : World) :
  try_except (os_unlink file_path)
    [ except cls_BaseException (fun _ => ret tt) ] w
  = (Return tt, after_unlink file_path w).
Proof.
  unfold try_except, os_unlink, after_unlink.
  destruct (existsb (at_path file_path) (files (filesystem w))); reflexivity.
Qed.

(** C10: when [loader.load()] raises, the routine returns normally, the
    only change to the world is one more line in the log, which quotes
    the exception: the files are as they were, so the temporary file has
    not been deleted, and the ingestion routine has not been called.  When
    [loader.load()] returns, the routine unlinks the file next, goes on
    whether the unlinking raised or not, and hands the documents to the
    ingestion routine, whose exception, if any, is logged too. *)
Theorem C10_temp_file_kept_when_load_fails :
  forall (loader_load : FileSystem -> string -> Result (list string))
         (add_received_file_document : string -> list string -> Z -> M unit)
         (file_path filename : string) (search_space_id : Z) (w : World),
    (forall e,
        loader_load (filesystem w) file_path = Raise e ->
        process_file_in_background loader_load add_received_file_document
          file_path filename search_space_id w
        = (Return tt,
           with_logging w
             (logging w ++ ["Error processing file in background: " ++ str e])))
    /\ (forall docs,
           loader_load (filesystem w) file_path = Return docs ->
           process_file_in_background loader_load add_received_file_document
             file_path filename search_space_id w
           = try_except
               (add_received_file_document filename docs search_space_id)
               [ except cls_Exception
                   (fun e =>
                      logging_error
                        ("Error processing file in background: " ++ str e)) ]
               (after_unlink file_path w)).
Proof.
  intros loader_load add_received_file_document file_path filename
         search_space_id w.
  split.
  - intros e Hload. unfold process_file_in_background, try_except at 1, bind.
    rewrite Hload. destruct e; reflexivity.
  - intros docs Hload. unfold process_file_in_background, try_except at 1, bind.
    rewrite Hload. rewrite unlink_swallowed. reflexivity.
Qed.

Lemma C10_temp_file_kept_when_load_fails_witness :
  Background.refusing_loader (filesystem Background.world) "/tmp/tmp0.pdf"
  = Raise (Error "unsupported file type")
  /\ process_file_in_background Background.refusing_loader Background.ingest
       "/tmp/tmp0.pdf" "notes.pdf" 10 Background.world
     = (Return tt,
        with_logging Background.world
          ["Error processing file in background: unsupported file type"])
  /\ files (filesystem
       (snd (process_file_in_background Background.parsing_loader Background.ingest
               "/tmp/tmp0.pdf" "notes.pdf" 10 Background.world))) = [].
Proof.
  split; [reflexivity|]. split.
  - exact (proj1 (C10_temp_file_kept_when_load_fails
                    Background.refusing_loader Background.ingest
                    "/tmp/tmp0.pdf" "notes.pdf" 10 Background.world)
             (Error "unsupported file type") eq_refl).
  - rewrite (proj2 (C10_temp_file_kept_when_load_fails
                      Background.parsing_loader Background.ingest
                      "/tmp/tmp0.pdf" "notes.pdf" 10 Background.world)
               ["%PDF"] eq_refl).
    reflexivity.
Defined.

(** * Further properties of the routes *)

(** ** Scheduling structured content *)

Lemma with_session_same (w : World) :
  with_session w (session w) = w.
Proof. destruct w. reflexivity. Qed.

Lemma flush_fresh (s : Session) :
  fresh s -> flush s = database s.
Proof.
  intros [Hdirty Hdeleted]. unfold flush. rewrite Hdirty, Hdeleted.
  rewrite (map_ext (flush_row []) (fun row => row)) by reflexivity.
  rewrite map_id.
  rewrite (filter_ext (fun row => negb (is_deleted [] row)) (fun _ => true))
    by reflexivity.
  rewrite filter_true. destruct (database s). reflexivity.
Qed.

Lemma session_commit_fresh (w : World) :
  fresh (session w) -> session_commit w = (Return tt, w).
Proof.
  intros Hfresh. unfold session_commit. rewrite (flush_fresh _ Hfresh).
  destruct Hfresh as [Hdirty Hdeleted].
  rewrite <- Hdirty at 1. rewrite <- Hdeleted at 1.
  destruct w as [[db di de] ts fs lg]. reflexivity.
Qed.

Lemma for_each_add_task {A : Type} (f : A -> Task) (items : list A) (w : World) :
  for_each items (fun x => add_task (f x)) w
  = (Return tt, with_tasks w (fastapi_background_tasks w ++ map f items)).
Proof.
  revert w. induction items as [|x items IH]; intros w; simpl.
  - rewrite app_nil_r. destruct w. reflexivity.
  - unfold bind, add_task. rewrite IH. simpl.
    rewrite <- app_assoc. reflexivity.
Qed.

Lemma create_documents_schedules_one_task_per_item_run :
  forall (check_ownership : Session -> Z -> User.t -> Result SearchSpace.t)
         (request : DocumentsCreate.t) (user : User.t) (w : World)
         (space : SearchSpace.t),
    fresh (session w) ->
    check_ownership (session w) (DocumentsCreate.search_space_id request) user
    = Return space ->
    supported (DocumentsCreate.document_type request) = true ->
    create_documents check_ownership request user w
    = (Return "Documents processed successfully",
       with_tasks w
         (fastapi_background_tasks w
          ++ map (scheduled_for (DocumentsCreate.document_type request)
                    (DocumentsCreate.search_space_id request))
               (DocumentsCreate.content request))).
Proof.
  intros check_ownership request user w space Hfresh Hown Hty.
  unfold create_documents, try_except, bind, await_check_ownership.
  rewrite Hown.
  destruct (DocumentsCreate.document_type request); try discriminate Hty;
    rewrite for_each_add_task; rewrite session_commit_fresh by exact Hfresh;
    reflexivity.
Qed.

(** X1: a request with a supported [document_type] that passes the
    ownership check is acknowledged, and what it does is to put one task
    on the list for every item of the content, in the order of the
    content, each with the function of the document type, the item and
    the request's [search_space_id].  Nothing else changes: with a session
    that has nothing pending, the commit writes nothing. *)
Theorem create_documents_schedules_one_task_per_item :
  forall (check_ownership : Session -> Z -> User.t -> Result SearchSpace.t)
         (request : DocumentsCreate.t) (user : User.t) (w : World)
         (space : SearchSpace.t),
    fresh (session w) ->
    check_ownership (session w) (DocumentsCreate.search_space_id request) user
    = Return space ->
    supported (DocumentsCreate.document_type request) = true ->
    create_documents check_ownership request user w
    = (Return "Documents processed successfully",
       with_tasks w
         (fastapi_background_tasks w
          ++ map (scheduled_for (DocumentsCreate.document_type request)
                    (DocumentsCreate.search_space_id request))
               (DocumentsCreate.content request))).
Proof.
  intros check_ownership request user w space Hfresh Hown Hty.
  exact (create_documents_schedules_one_task_per_item_run
           check_ownership request user w space Hfresh Hown Hty).
Qed.

Lemma create_documents_schedules_one_task_per_item_witness :
  fresh (session Sample.world)
  /\ supported CRAWLED_URL = true
  /\ create_documents check_ownership_model
       (crawl_request ["https://a.example"; "https://b.example"] 10)
       Sample.alice Sample.world
     = (Return "Documents processed successfully",
        with_tasks Sample.world
          [process_crawled_url_with_new_session "https://a.example" 10;
           process_crawled_url_with_new_session "https://b.example" 10]).
Proof.
  split; [exact Sample_fresh|]. split; [reflexivity|].
  exact (create_documents_schedules_one_task_per_item check_ownership_model
           (crawl_request ["https://a.example"; "https://b.example"] 10)
           Sample.alice Sample.world
           {| SearchSpace.id := 10; SearchSpace.user_id := 1 |}
           Sample_fresh eq_refl eq_refl).
Defined.

(** X2: when the ownership check raises, [create_documents] does nothing
    else, whatever the request holds.  An [HTTPException] of the check is
    the answer as it is and the world is untouched; any other exception
    becomes a 500 that quotes it, after a rollback.  In both cases no task
    is scheduled and the rows are as they were. *)
Theorem create_documents_refused_by_ownership_check :
  forall (check_ownership : Session -> Z -> User.t -> Result SearchSpace.t)
         (request : DocumentsCreate.t) (user : User.t) (w : World) (e : exn),
    check_ownership (session w) (DocumentsCreate.search_space_id request) user
    = Raise e ->
    exists w',
      create_documents check_ownership request user w
      = (Raise match e with
               | HTTPException _ _ => e
               | Error message =>
                   HTTPException 500 ("Failed to process documents: " ++ message)
               end, w')
      /\ fastapi_background_tasks w' = fastapi_background_tasks w
      /\ filesystem w' = filesystem w
      /\ logging w' = logging w
      /\ database (session w') = database (session w)
      /\ (isinstance e cls_HTTPException = true -> w' = w)
      /\ (isinstance e cls_HTTPException = false -> fresh (session w')).
Proof.
  intros check_ownership request user w e Hown.
  rewrite (create_documents_not_owner check_ownership request user w e Hown).
  destruct e as [status_code detail|message]; eexists; split; try reflexivity;
    simpl; repeat split; try reflexivity; try discriminate;
    try (intros Hclass; discriminate Hclass).
Qed.

Lemma create_documents_refused_by_ownership_check_witness :
  check_ownership_model (session Sample.world) 10 Sample.bob
  = Raise (HTTPException 403 "Not authorized to access this search space")
  /\ create_documents check_ownership_model
       (crawl_request ["https://a.example"] 10) Sample.bob Sample.world
     = (Raise (HTTPException 403 "Not authorized to access this search space"),
        Sample.world).
Proof.
  split; [reflexivity|].
  destruct (create_documents_refused_by_ownership_check check_ownership_model
              (crawl_request ["https://a.example"] 10) Sample.bob Sample.world
              (HTTPException 403 "Not authorized to access this search space")
              eq_refl)
    as (w' & Hrun & _ & _ & _ & _ & Hsame & _).
  rewrite Hrun. rewrite (Hsame eq_refl). reflexivity.
Defined.

(** X3: when the ownership check raises, the upload route does nothing
    else, whatever files the request holds: the answer is the check's
    [HTTPException] as it is, or a 500 that quotes any other exception
    after a rollback, and no file is read, no temporary file is made and
    no task is scheduled. *)
Theorem fileupload_refused_by_ownership_check :
  forall (check_ownership : Session -> Z -> User.t -> Result SearchSpace.t)
         (upload : list UploadFile) (search_space_id : Z) (user : User.t)
         (w : World) (e : exn),
    check_ownership (session w) search_space_id user = Raise e ->
    exists w',
      create_documents_fileupload check_ownership upload search_space_id user w
      = (Raise match e with
               | HTTPException _ _ => e
               | Error message =>
                   HTTPException 500 ("Failed to upload files: " ++ message)
               end, w')
      /\ fastapi_background_tasks w' = fastapi_background_tasks w
      /\ filesystem w' = filesystem w
      /\ logging w' = logging w
      /\ database (session w') = database (session w)
      /\ (isinstance e cls_HTTPException = true -> w' = w)
      /\ (isinstance e cls_HTTPException = false -> fresh (session w')).
Proof.
  intros check_ownership upload search_space_id user w e Hown.
  rewrite (create_documents_fileupload_not_owner
             check_ownership upload search_space_id user w e Hown).
  destruct e as [status_code detail|message]; eexists; split; try reflexivity;
    simpl; repeat split; try reflexivity; try discriminate;
    try (intros Hclass; discriminate Hclass).
Qed.

Lemma fileupload_refused_by_ownership_check_witness :
  check_ownership_model (session Sample.world) 10 Sample.bob
  = Raise (HTTPException 403 "Not authorized to access this search space")
  /\ create_documents_fileupload check_ownership_model
       [Sample.good; Sample.broken] 10 Sample.bob Sample.world
     = (Raise (HTTPException 403 "Not authorized to access this search space"),
        Sample.world).
Proof.
  split; [reflexivity|].
  destruct (fileupload_refused_by_ownership_check check_ownership_model
              [Sample.good; Sample.broken] 10 Sample.bob Sample.world
              (HTTPException 403 "Not authorized to access this search space")
              eq_refl)
    as (w' & Hrun & _ & _ & _ & _ & Hsame & _).
  rewrite Hrun. rewrite (Hsame eq_refl). reflexivity.
Defined.

(** ** Names of temporary files *)

Lemma no_dot_uint (d : Decimal.uint) : no_dot (NilEmpty.string_of_uint d).
Proof. induction d; simpl; auto. Qed.

Lemma no_dot_str_int (i : Z) : no_dot (str_int i).
Proof.
  unfold str_int. destruct (Z.to_int i) as [d|d]; simpl.
  - destruct d; simpl; auto using no_dot_uint.
  - split; [reflexivity|]. destruct d; simpl; auto using no_dot_uint.
Qed.

Lemma to_int_not_nil (i : Z) :
  Z.to_int i <> Decimal.Pos Decimal.Nil /\ Z.to_int i <> Decimal.Neg Decimal.Nil.
Proof.
  destruct i; simpl; split; try discriminate;
    intros H; injection H as H; revert H;
    apply DecimalPos.Unsigned.to_uint_nonnil.
Qed.

Lemma str_int_inj (i j : Z) : str_int i = str_int j -> i = j.
Proof.
  unfold str_int. intros H. apply DecimalZ.to_int_inj.
  destruct (to_int_not_nil i) as [Hi1 Hi2].
  destruct (to_int_not_nil j) as [Hj1 Hj2].
  pose proof (NilZero.isi (Z.to_int i) Hi1 Hi2) as Ei.
  pose proof (NilZero.isi (Z.to_int j) Hj1 Hj2) as Ej.
  rewrite H in Ei. rewrite Ei in Ej. now injection Ej.
Qed.

Lemma append_before_dot (a b s s' : string) :
  no_dot a -> no_dot b -> dot_or_empty s -> dot_or_empty s' ->
  a ++ s = b ++ s' -> a = b.
Proof.
  revert b. induction a as [|c a IH]; intros [|c' b] Ha Hb Hs Hs' E; simpl in *.
  - reflexivity.
  - subst s. simpl in Hs. destruct Hb as [Hc _]. congruence.
  - subst s'. simpl in Hs'. destruct Ha as [Hc _]. congruence.
  - injection E as Ec E. subst c'. f_equal.
    apply IH; tauto.
Qed.

Lemma from_last_dot_shape (p : list ascii) :
  dot_or_empty (string_of_list_ascii (from_last_dot p)).
Proof.
  induction p as [|c p IH]; simpl; [exact I|].
  destruct (from_last_dot p) as [|c' ext] eqn:E.
  - destruct (is_dot c) eqn:Hc; simpl; [exact Hc | exact I].
  - exact IH.
Qed.

Lemma splitext_ext_shape (name : string) : dot_or_empty (splitext_ext name).
Proof. unfold splitext_ext. apply from_last_dot_shape. Qed.

(** Two temporary names with different numbers differ, whatever the
    extensions. *)
Lemma temp_name_inj (n m : nat) (s s' : string) :
  dot_or_empty s -> dot_or_empty s' ->
  temp_name n s = temp_name m s' -> n = m.
Proof.
  intros Hs Hs' E. unfold temp_name in E. simpl in E.
  injection E as E.
  apply append_before_dot in E; auto using no_dot_str_int.
  apply str_int_inj in E. now apply Nat2Z.inj.
Qed.

(** ** A successful upload *)

Lemma find_filter_other (p path : string) (l : list (string * string)) :
  String.eqb p path = false ->
  find (at_path path) (filter (fun entry => negb (at_path p entry)) l)
  = find (at_path path) l.
Proof.
  intros Hne. induction l as [|entry l IH]; simpl; [reflexivity|].
  destruct (at_path p entry) eqn:Ep; simpl.
  - assert (Hpath : at_path path entry = false).
    { unfold at_path in *. apply String.eqb_eq in Ep. rewrite Ep. exact Hne. }
    rewrite Hpath. exact IH.
  - destruct (at_path path entry); [reflexivity | exact IH].
Qed.

Lemma stage_or_422_run (search_space_id : Z) (file : UploadFile)
    (content : string) (w : World) :
  read file = Return content ->
  stage_or_422 search_space_id file w
  = (Return tt,
     {| session := session w;
        fastapi_background_tasks :=
          fastapi_background_tasks w
          ++ [process_file_in_background_with_new_session
                (temp_name (tmp_counter (filesystem w))
                   (splitext_ext (filename file)))
                (filename file) search_space_id];
        filesystem :=
          {| files :=
               (temp_name (tmp_counter (filesystem w))
                  (splitext_ext (filename file)), content)
               :: filter
                    (fun entry =>
                       negb (at_path
                               (temp_name (tmp_counter (filesystem w))
                                  (splitext_ext (filename file))) entry))
                    ((temp_name (tmp_counter (filesystem w))
                        (splitext_ext (filename file)), EmptyString)
                     :: files (filesystem w));
             tmp_counter := S (tmp_counter (filesystem w)) |};
        logging := logging w |}).
Proof.
  intros Hread.
  unfold stage_or_422, try_except, stage_file, bind, NamedTemporaryFile, lift.
  rewrite Hread. reflexivity.
Qed.

(** Staging a file that can be read: its task goes to the end of the
    list, and its content is at the task's path, the other paths being as
    they were. *)
Lemma stage_or_422_staged (search_space_id : Z) (file : UploadFile) (w : World) :
  (exists content, read file = Return content) ->
  exists w1,
    stage_or_422 search_space_id file w = (Return tt, w1)
    /\ session w1 = session w
    /\ logging w1 = logging w
    /\ fastapi_background_tasks w1
       = (fastapi_background_tasks w
          ++ [process_file_in_background_with_new_session
                (temp_name (tmp_counter (filesystem w))
                   (splitext_ext (filename file)))
                (filename file) search_space_id])%list
    /\ tmp_counter (filesystem w1) = S (tmp_counter (filesystem w))
    /\ forall path,
         content_at (filesystem w1) path
         = if String.eqb (temp_name (tmp_counter (filesystem w))
                            (splitext_ext (filename file))) path
           then Some (content_of file)
           else content_at (filesystem w) path.
Proof.
  intros [content Hread]. eexists.
  split; [exact (stage_or_422_run search_space_id file content w Hread)|].
  unfold content_of. rewrite Hread.
  set (p := temp_name (tmp_counter (filesystem w)) (splitext_ext (filename file))).
  clearbody p. cbn [session logging fastapi_background_tasks filesystem
                    tmp_counter files].
  repeat split. intros path. unfold content_at.
  cbn [files find]. unfold at_path at 1. cbn [fst].
  destruct (String.eqb p path) eqn:E; [reflexivity|].
  cbn [filter]. unfold at_path at 2. cbn [fst]. rewrite String.eqb_refl.
  cbn [negb]. rewrite (find_filter_other _ _ _ E). reflexivity.
Qed.

Lemma upload_loop_staged (search_space_id : Z) (upload : list UploadFile) (w : World) :
  readable upload ->
  exists w1,
    for_each upload (stage_or_422 search_space_id) w = (Return tt, w1)
    /\ session w1 = session w
    /\ logging w1 = logging w
    /\ fastapi_background_tasks w1
       = (fastapi_background_tasks w
          ++ upload_tasks (tmp_counter (filesystem w)) upload search_space_id)%list
    /\ tmp_counter (filesystem w1)
       = (tmp_counter (filesystem w) + List.length upload)%nat
    /\ (forall path,
           (forall i file, nth_error upload i = Some file ->
                           path <> temp_name (tmp_counter (filesystem w) + i)
                                     (splitext_ext (filename file))) ->
           content_at (filesystem w1) path = content_at (filesystem w) path)
    /\ (forall i file,
           nth_error upload i = Some file ->
           content_at (filesystem w1)
             (temp_name (tmp_counter (filesystem w) + i)
                (splitext_ext (filename file)))
           = Some (content_of file)).
Proof.
  revert w. induction upload as [|file rest IH]; intros w Hok.
  - exists w. simpl. rewrite app_nil_r, Nat.add_0_r.
    repeat split; try reflexivity. intros [|i] file H; discriminate H.
  - inversion Hok as [|? ? Hfile Hrest]; subst.
    destruct (stage_or_422_staged search_space_id file w Hfile)
      as (w1 & Hrun & Hs & Hlog & Htasks & Hcount & Hcontent).
    destruct (IH w1 Hrest)
      as (w2 & Hrun2 & Hs2 & Hlog2 & Htasks2 & Hcount2 & Hkeep2 & Hcontent2).
    exists w2. simpl for_each. unfold bind. rewrite Hrun, Hrun2.
    rewrite Hs2, Hlog2, Htasks2, Hcount2, Hs, Hlog, Htasks, Hcount.
    rewrite <- app_assoc. simpl.
    split; [reflexivity|]. split; [reflexivity|]. split; [reflexivity|].
    split; [reflexivity|]. split; [lia|]. split.
    + intros path Hother. rewrite Hkeep2.
      * rewrite Hcontent.
        destruct (String.eqb_spec
                    (temp_name (tmp_counter (filesystem w))
                       (splitext_ext (filename file))) path) as [E|E];
          [|reflexivity].
        exfalso. apply (Hother 0%nat file eq_refl).
        rewrite Nat.add_0_r. now symmetry.
      * intros i f Hi. rewrite Hcount.
        replace (S (tmp_counter (filesystem w)) + i)%nat
          with (tmp_counter (filesystem w) + S i)%nat by lia.
        exact (Hother (S i) f Hi).
    + intros [|i] f Hi; simpl in Hi.
      * injection Hi as Hi. subst f. rewrite Nat.add_0_r.
        rewrite Hkeep2.
        -- rewrite Hcontent, String.eqb_refl. reflexivity.
        -- intros j g Hj E. rewrite Hcount in E.
           apply temp_name_inj in E; auto using splitext_ext_shape. lia.
      * replace (tmp_counter (filesystem w) + S i)%nat
          with (S (tmp_counter (filesystem w)) + i)%nat by lia.
        rewrite <- Hcount. exact (Hcontent2 i f Hi).
Qed.

Lemma upload_guard_nonempty (upload : list UploadFile) :
  upload <> [] ->
  match upload with
  | [] => raise (HTTPException 400 "No files provided")
  | _ :: _ => ret tt
  end = ret tt.
Proof. destruct upload; [contradiction | reflexivity]. Qed.



(** ** An upload with a file that cannot be read *)

Lemma first_unreadable_none (upload : list UploadFile) :
  first_unreadable upload = None -> readable upload.
Proof.
  induction upload as [|file rest IH]; simpl; intros H; [constructor|].
  destruct (read file) as [content|e] eqn:Hread; [|discriminate H].
  destruct (first_unreadable rest) as [[[[? ?] ?] ?]|]; [discriminate H|].
  constructor; [exists content; exact Hread | apply IH; reflexivity].
Qed.

Lemma first_unreadable_some (upload before after : list UploadFile)
    (failing : UploadFile) (e : exn) :
  first_unreadable upload = Some (before, failing, e, after) ->
  upload = (before ++ failing :: after)%list
  /\ readable before
  /\ read failing = Raise e.
Proof.
  revert before. induction upload as [|file rest IH]; simpl; intros before H;
    [discriminate H|].
  destruct (read file) as [content|e'] eqn:Hread.
  - destruct (first_unreadable rest) as [[[[b f] e''] a]|]; [|discriminate H].
    injection H as Hb Hf He Ha. subst.
    destruct (IH b eq_refl) as (Hrest & Hok & Hfail).
    split; [simpl; f_equal; exact Hrest|].
    split; [|exact Hfail].
    constructor; [exists content; exact Hread | exact Hok].
  - injection H as Hb Hf He Ha. subst.
    split; [reflexivity|]. split; [constructor | exact Hread].
Qed.


(** The loop over the files when the files before one can be read and
    that one cannot. *)
Lemma upload_loop_fails (search_space_id : Z) (before after : list UploadFile)
    (failing : UploadFile) (e : exn) (w : World) :
  readable before ->
  read failing = Raise e ->
  exists w1,
    for_each before (stage_or_422 search_space_id) w = (Return tt, w1)
    /\ for_each (before ++ failing :: after) (stage_or_422 search_space_id) w
       = (Raise (HTTPException 422
                   ("Failed to process file " ++ filename failing
                    ++ ": " ++ str e)),
          with_filesystem w1
            {| files :=
                 (temp_name (tmp_counter (filesystem w1))
                    (splitext_ext (filename failing)), EmptyString)
                 :: files (filesystem w1);
               tmp_counter := S (tmp_counter (filesystem w1)) |}).
Proof.
  intros Hok Hread.
  destruct (upload_loop_staged search_space_id before w Hok) as (w1 & Hrun & _).
  exists w1. split; [exact Hrun|].
  rewrite for_each_app, Hrun. simpl for_each. unfold bind.
  rewrite (stage_or_422_fails search_space_id failing e w1 Hread).
  reflexivity.
Qed.





(** ** The background entry points *)

Lemma logged_run (msg : string) (body : M unit) (w : World) :
  try_except body
    [ except cls_Exception (fun e => logging_error (msg ++ str e)) ] w
  = match body w with
    | (Return _, w') => (Return tt, w')
    | (Raise e, w') => (Return tt, with_logging w' (logging w' ++ [msg ++ str e]))
    end.
Proof.
  unfold try_except. destruct (body w) as [[[]|e] w']; [reflexivity|].
  destruct e; reflexivity.
Qed.

Lemma async_with_session_returns {A : Type} (body : M A) (w : World) :
  (forall w0, exists a w1, body w0 = (Return a, w1)) ->
  exists a w', async_with_session body w = (Return a, w') /\ fresh (session w').
Proof.
  intros Hbody. unfold async_with_session.
  destruct (Hbody (with_session w (async_session_maker (database (session w)))))
    as (a & w1 & E).
  rewrite E. exists a. eexists. split; [reflexivity|]. split; reflexivity.
Qed.

Lemma logged_returns (msg : string) (body : M unit) (w : World) :
  exists a w',
    try_except body
      [ except cls_Exception (fun e => logging_error (msg ++ str e)) ] w
    = (Return a, w').
Proof.
  rewrite logged_run. destruct (body w) as [[[]|e] w']; eauto.
Qed.

Lemma process_file_in_background_returns
    (loader_load : FileSystem -> string -> Result (list string))
    (add_received_file_document : string -> list string -> Z -> M unit)
    (file_path filename : string) (search_space_id : Z) (w : World) :
  exists a w',
    process_file_in_background loader_load add_received_file_document
      file_path filename search_space_id w = (Return a, w').
Proof.
  unfold process_file_in_background.
  apply (logged_returns "Error processing file in background: ").
Qed.

Lemma call_task_returns
    (add_extension_received_document add_crawled_url_document : string -> Z -> M unit)
    (loader_load : FileSystem -> string -> Result (list string))
    (add_received_file_document : string -> list string -> Z -> M unit)
    (print : string -> M unit) (t : Task) (w : World) :
  exists w',
    call_task add_extension_received_document add_crawled_url_document
      loader_load add_received_file_document print t w = (Return tt, w')
    /\ fresh (session w').
Proof.
  assert (Hunit : forall body : M unit,
             (forall w0, exists a w1, body w0 = (Return a, w1)) ->
             exists w', async_with_session body w = (Return tt, w')
                        /\ fresh (session w')).
  { intros body Hbody.
    destruct (async_with_session_returns body w Hbody) as ([] & w' & H).
    exists w'. exact H. }
  destruct t; simpl; apply Hunit; intros w0.
  - apply logged_returns.
  - apply logged_returns.
  - apply logged_returns.
  - apply process_file_in_background_returns.
Qed.

(** X7: no background task lets an exception out.  Whatever the ingestion
    routines, the partitioning library and [print] do, be it to return or
    to raise an exception of the class [Exception], each recorded task
    returns normally and leaves its session closed; so when the tasks of
    a list are called one after the other, every one of them is called
    and the whole returns normally. *)
Theorem background_tasks_never_raise :
  forall (add_extension_received_document add_crawled_url_document
            : string -> Z -> M unit)
         (loader_load : FileSystem -> string -> Result (list string))
         (add_received_file_document : string -> list string -> Z -> M unit)
         (print : string -> M unit) (tasks : list Task) (w : World),
    (forall t w0,
        exists w1,
          call_task add_extension_received_document add_crawled_url_document
            loader_load add_received_file_document print t w0 = (Return tt, w1)
          /\ fresh (session w1))
    /\ exists w',
         for_each tasks
           (call_task add_extension_received_document add_crawled_url_document
              loader_load add_received_file_document print) w
         = (Return tt, w').
Proof.
  intros add_ext add_crawl loader_load add_file print tasks w.
  split; [intros t w0; apply call_task_returns|].
  revert w. induction tasks as [|t tasks IH]; intros w; simpl.
  - exists w. reflexivity.
  - destruct (call_task_returns add_ext add_crawl loader_load add_file print t w)
      as (w1 & E & _).
    unfold bind. rewrite E. apply IH.
Qed.

Lemma failing_crawl_task
    (add_crawled_url_document : string -> Z -> M unit)
    (url : string) (search_space_id : Z) (e : exn) (w : World) :
  (forall w0, exists w1,
      add_crawled_url_document url search_space_id w0 = (Raise e, w1)
      /\ logging w1 = logging w0) ->
  exists w',
    Tasks.process_crawled_url_with_new_session add_crawled_url_document
      url search_space_id w = (Return tt, w')
    /\ logging w'
       = (logging w ++ [("Error processing crawled URL: " ++ str e)%string])%list.
Proof.
  intros Hfail.
  unfold Tasks.process_crawled_url_with_new_session, async_with_session.
  rewrite logged_run.
  destruct (Hfail (with_session w (async_session_maker (database (session w)))))
    as (w1 & E & Hlog).
  rewrite E. eexists. split; [reflexivity|]. simpl. rewrite Hlog. reflexivity.
Qed.

(** X8: a request to crawl URLs is acknowledged although the ingestion of
    every URL fails afterwards: the request returns its success message
    with one task per URL, and calling these tasks returns normally too,
    the only trace of the failures being one line in the log for every
    URL, in the order of the URLs. *)
Theorem failed_ingestion_is_only_logged :
  forall (check_ownership : Session -> Z -> User.t -> Result SearchSpace.t)
         (add_extension_received_document add_crawled_url_document
            : string -> Z -> M unit)
         (loader_load : FileSystem -> string -> Result (list string))
         (add_received_file_document : string -> list string -> Z -> M unit)
         (print : string -> M unit)
         (urls : list string) (search_space_id : Z) (user : User.t)
         (w : World) (space : SearchSpace.t) (e : exn),
    fresh (session w) ->
    check_ownership (session w) search_space_id user = Return space ->
    (forall url w0, exists w1,
        add_crawled_url_document url search_space_id w0 = (Raise e, w1)
        /\ logging w1 = logging w0) ->
    exists w1 w2,
      create_documents check_ownership (crawl_request urls search_space_id) user w
      = (Return "Documents processed successfully", w1)
      /\ fastapi_background_tasks w1
         = (fastapi_background_tasks w
            ++ map (scheduled_for CRAWLED_URL search_space_id) urls)%list
      /\ for_each (map (scheduled_for CRAWLED_URL search_space_id) urls)
           (call_task add_extension_received_document add_crawled_url_document
              loader_load add_received_file_document print) w1
         = (Return tt, w2)
      /\ logging w2
         = (logging w
            ++ map (fun _ => ("Error processing crawled URL: " ++ str e)%string) urls)%list.
Proof.
  intros check_ownership add_ext add_crawl loader_load add_file print
         urls search_space_id user w space e Hfresh Hown Hfail.
  eexists.
  assert (Hrun : forall l w0, exists w2,
             for_each (map (scheduled_for CRAWLED_URL search_space_id) l)
               (call_task add_ext add_crawl loader_load add_file print) w0
             = (Return tt, w2)
             /\ logging w2
                = (logging w0
                   ++ map (fun _ => ("Error processing crawled URL: " ++ str e)%string) l)%list).
  { induction l as [|url l IH]; intros w0; simpl.
    - exists w0. rewrite app_nil_r. split; reflexivity.
    - destruct (failing_crawl_task add_crawl url search_space_id e w0 (Hfail url))
        as (w1 & E & Hlog).
      unfold bind. rewrite E.
      destruct (IH w1) as (w2 & E2 & Hlog2).
      exists w2. split; [exact E2|].
      rewrite Hlog2, Hlog, <- app_assoc. reflexivity. }
  destruct (Hrun urls
              (with_tasks w
                 (fastapi_background_tasks w
                  ++ map (scheduled_for CRAWLED_URL search_space_id) urls)))
    as (w2 & E2 & Hlog2).
  exists w2. split.
  { exact (create_documents_schedules_one_task_per_item_run check_ownership
             (crawl_request urls search_space_id) user w space
             Hfresh Hown eq_refl). }
  split; [reflexivity|]. split; [exact E2|]. exact Hlog2.
Qed.

Lemma failed_ingestion_is_only_logged_witness :
  fresh (session Sample.world)
  /\ exists w1 w2,
       create_documents check_ownership_model
         (crawl_request ["https://a.example"; "https://b.example"] 10)
         Sample.alice Sample.world
       = (Return "Documents processed successfully", w1)
       /\ for_each (map (scheduled_for CRAWLED_URL 10)
                      ["https://a.example"; "https://b.example"])
            (call_task idle unreachable Background.refusing_loader
               Background.ingest silent) w1
          = (Return tt, w2)
       /\ logging w2
          = ["Error processing crawled URL: connection refused";
             "Error processing crawled URL: connection refused"].
Proof.
  split; [exact Sample_fresh|].
  destruct (failed_ingestion_is_only_logged check_ownership_model
              idle unreachable Background.refusing_loader Background.ingest silent
              ["https://a.example"; "https://b.example"] 10
              Sample.alice Sample.world
              {| SearchSpace.id := 10; SearchSpace.user_id := 1 |}
              (Error "connection refused") Sample_fresh eq_refl
              (fun url w0 => ex_intro _ w0 (conj eq_refl eq_refl)))
    as (w1 & w2 & Hreq & _ & Hrun & Hlog).
  exists w1, w2. split; [exact Hreq|]. split; [exact Hrun | exact Hlog].
Defined.

(** ** Reading *)








(** With [id] the primary key, the statement for an id selects the row
    of that id first, when the user owns it. *)
Lemma rows_of_owned (db : Database) (user : User.t) (doc : Document.t) :
  NoDup (map Document.id (documents db)) ->
  In doc (documents db) ->
  owns db user doc = true ->
  exists rest,
    rows db (select_owned_by_id (Document.id doc) user) = doc :: rest.
Proof.
  intros Hnd Hin Ho.
  assert (Hrow : In doc (rows db (select_owned_by_id (Document.id doc) user)))
    by (apply rows_by_id_In; auto).
  destruct (rows db (select_owned_by_id (Document.id doc) user))
    as [|first rest] eqn:E; [contradiction|].
  assert (Hfirst : In first (rows db (select_owned_by_id (Document.id doc) user)))
    by (rewrite E; apply in_eq).
  apply rows_by_id_In in Hfirst. destruct Hfirst as (Hfin & Hfid & _).
  assert (first = doc)
    by (apply (same_key_same_row Document.id (documents db)); auto).
  subst first. exists rest. reflexivity.
Qed.

Lemma read_document_owned (user : User.t) (w : World) (doc : Document.t) :
  NoDup (map Document.id (documents (database (session w)))) ->
  In doc (documents (database (session w))) ->
  owns (database (session w)) user doc = true ->
  read_document (Document.id doc) user w = (Return (to_DocumentRead doc), w).
Proof.
  intros Hnd Hin Ho. rewrite read_document_run.
  destruct (rows_of_owned _ user doc Hnd Hin Ho) as (rest & E).
  rewrite E. reflexivity.
Qed.

(** X12: the single-document read of a document the user owns returns
    the seven attributes of that row and leaves the world as it was; so
    every document a listing returns, whatever its [skip] and [limit], is
    returned again, the same, by the single-document read of its id. *)
Theorem listed_documents_can_be_read :
  forall (user : User.t) (w : World),
    primary_keys (database (session w)) ->
    (forall doc,
        In doc (documents (database (session w))) ->
        owns (database (session w)) user doc = true ->
        read_document (Document.id doc) user w = (Return (to_DocumentRead doc), w))
    /\ (forall skip limit out w',
           read_documents skip limit user w = (Return out, w') ->
           forall r, In r out ->
                     read_document (DocumentRead.id r) user w = (Return r, w)).
Proof.
  intros user w [Hdocs _]. split.
  - intros doc Hin Ho. exact (read_document_owned user w doc Hdocs Hin Ho).
  - intros skip limit out w' Hrun r Hr.
    apply read_documents_returns in Hrun. destruct Hrun as [_ Hout].
    subst out. apply in_map_iff in Hr. destruct Hr as (doc & Hr & Hin).
    apply page_In in Hin. destruct Hin as [Hin Ho]. subst r.
    exact (read_document_owned user w doc Hdocs Hin Ho).
Qed.

Lemma listed_documents_can_be_read_witness :
  primary_keys (database (session Sample.world))
  /\ read_document 4 Sample.alice Sample.world
     = (Return (to_DocumentRead (Sample.doc 4 10 "c")), Sample.world).
Proof.
  split; [exact Sample_primary_keys|].
  exact (proj1 (listed_documents_can_be_read Sample.alice Sample.world
                  Sample_primary_keys)
           (Sample.doc 4 10 "c")
           (or_intror (or_intror (or_intror (or_introl eq_refl)))) eq_refl).
Defined.

(** ** What the requests keep *)

Lemma replaced_keys (pk : Z) (obj : Document.t) (l : list Document.t) :
  Document.id obj = pk ->
  map Document.id (map (replace_row pk obj) l) = map Document.id l.
Proof.
  intros Hid. rewrite map_map. apply map_ext. intros row.
  unfold replace_row, has_id.
  destruct (Z.eqb_spec (Document.id row) pk) as [E|E]; congruence.
Qed.

Lemma updated_id (u : DocumentUpdate.t) (doc : Document.t) :
  Document.id (updated u doc) = Document.id doc.
Proof. unfold updated. apply fold_set_attribute_id. Qed.

(** The session and the rows after a request to [update_document]. *)
Lemma update_document_keeps (document_id : Z) (document_update : DocumentUpdate.t)
    (user : User.t) (w : World) :
  primary_keys (database (session w)) ->
  fresh (session w) ->
  primary_keys
    (database (session (snd (update_document document_id document_update user w))))
  /\ fresh (session (snd (update_document document_id document_update user w)))
  /\ searchspaces
       (database (session (snd (update_document document_id document_update user w))))
     = searchspaces (database (session w)).
Proof.
  intros Hpk Hfresh.
  destruct (rows (database (session w)) (select_owned_by_id document_id user))
    as [|old rest] eqn:E.
  - rewrite (update_document_missing _ _ _ _ E). simpl. auto.
  - rewrite (update_document_run _ _ _ _ old rest Hpk Hfresh E). simpl.
    destruct Hpk as [Hdocs Hspaces].
    split; [|split; [split; reflexivity | reflexivity]].
    split; [|exact Hspaces]. simpl.
    rewrite replaced_keys by apply updated_id. exact Hdocs.
Qed.

Lemma delete_document_keeps (document_id : Z) (user : User.t) (w : World) :
  primary_keys (database (session w)) ->
  fresh (session w) ->
  primary_keys (database (session (snd (delete_document document_id user w))))
  /\ fresh (session (snd (delete_document document_id user w)))
  /\ searchspaces (database (session (snd (delete_document document_id user w))))
     = searchspaces (database (session w)).
Proof.
  intros Hpk Hfresh.
  destruct (rows (database (session w)) (select_owned_by_id document_id user))
    as [|old rest] eqn:E.
  - rewrite (delete_document_missing _ _ _ E). simpl. auto.
  - rewrite (delete_document_run _ _ _ old rest Hfresh E). simpl.
    destruct Hpk as [Hdocs Hspaces].
    split; [|split; [split; reflexivity | reflexivity]].
    split; [|exact Hspaces]. simpl.
    now apply NoDup_keys_filter.
Qed.

Lemma read_document_world (document_id : Z) (user : User.t) (w : World) :
  snd (read_document document_id user w) = w.
Proof.
  rewrite read_document_run. destruct (scalars_first _); reflexivity.
Qed.

Lemma read_documents_world (skip limit : option Z) (user : User.t) (w : World) :
  snd (read_documents skip limit user w) = w.
Proof.
  unfold read_documents, try_except, bind, session_execute. simpl.
  destruct (default 0 skip <? 0); [reflexivity|].
  destruct (default 300 limit <? 0); reflexivity.
Qed.

Lemma create_documents_session
    (check_ownership : Session -> Z -> User.t -> Result SearchSpace.t)
    (request : DocumentsCreate.t) (user : User.t) (w : World) :
  fresh (session w) ->
  session (snd (create_documents check_ownership request user w)) = session w.
Proof.
  intros Hfresh.
  destruct (check_ownership (session w)
              (DocumentsCreate.search_space_id request) user) as [space|e] eqn:Hown.
  - destruct (supported (DocumentsCreate.document_type request)) eqn:Hty.
    + rewrite (create_documents_schedules_one_task_per_item_run
                 check_ownership request user w space Hfresh Hown Hty).
      reflexivity.
    + unfold create_documents, try_except, bind, await_check_ownership.
      rewrite Hown.
      destruct (DocumentsCreate.document_type request); try discriminate Hty;
        reflexivity.
  - rewrite (create_documents_not_owner check_ownership request user w e Hown).
    destruct e; [reflexivity|]. simpl.
    destruct Hfresh as [Hdirty Hdeleted].
    rewrite <- Hdirty at 1. rewrite <- Hdeleted at 1.
    destruct (session w). reflexivity.
Qed.

Lemma create_documents_fileupload_session
    (check_ownership : Session -> Z -> User.t -> Result SearchSpace.t)
    (upload : list UploadFile) (search_space_id : Z) (user : User.t) (w : World) :
  fresh (session w) ->
  session (snd (create_documents_fileupload check_ownership upload
                  search_space_id user w)) = session w.
Proof.
  intros Hfresh.
  destruct (check_ownership (session w) search_space_id user)
    as [space|e] eqn:Hown.
  - destruct upload as [|file files'] eqn:Hup.
    + unfold create_documents_fileupload, try_except, bind, await_check_ownership.
      rewrite Hown. reflexivity.
    + rewrite <- Hup.
      assert (Hne : upload <> []) by (rewrite Hup; discriminate).
      clear Hup.
      unfold create_documents_fileupload, try_except, bind, await_check_ownership.
      rewrite Hown, (upload_guard_nonempty upload Hne).
      change (ret tt w) with (Return tt, w). cbv beta iota.
      destruct (first_unreadable upload) as [[[[before failing] e] after]|] eqn:E.
      * apply first_unreadable_some in E. destruct E as (Hsplit & Hok & Hread).
        destruct (upload_loop_staged search_space_id before w Hok)
          as (w1 & Hrun & Hs & _).
        destruct (upload_loop_fails search_space_id before after failing e w
                    Hok Hread) as (w1' & Hrun' & Hloop).
        rewrite Hrun in Hrun'. injection Hrun' as Hw. subst w1'.
        rewrite Hsplit, Hloop. simpl. exact Hs.
      * apply first_unreadable_none in E.
        destruct (upload_loop_staged search_space_id upload w E)
          as (w1 & Hrun & Hs & _).
        rewrite Hrun. rewrite session_commit_fresh by (rewrite Hs; exact Hfresh).
        simpl. exact Hs.
  - rewrite (create_documents_fileupload_not_owner
               check_ownership upload search_space_id user w e Hown).
    destruct e; [reflexivity|]. simpl.
    destruct Hfresh as [Hdirty Hdeleted].
    rewrite <- Hdirty at 1. rewrite <- Hdeleted at 1.
    destruct (session w). reflexivity.
Qed.

(** X13: what the theorems on the routes assume of a request, every
    request leaves to the next.  If [id] is the primary key of both tables
    and the session has nothing pending when a request starts, the same
    holds when it ends, for each of the six routes and however the request
    ends; the four routes that do not write a document leave the session,
    and with it every row, as it was, and no route touches the search
    spaces. *)
Theorem requests_keep_keys_and_leave_nothing_pending :
  forall (check_ownership : Session -> Z -> User.t -> Result SearchSpace.t)
         (user : User.t) (w : World),
    primary_keys (database (session w)) ->
    fresh (session w) ->
    (forall request,
        session (snd (create_documents check_ownership request user w))
        = session w)
    /\ (forall upload search_space_id,
           session (snd (create_documents_fileupload check_ownership upload
                           search_space_id user w)) = session w)
    /\ (forall skip limit, snd (read_documents skip limit user w) = w)
    /\ (forall document_id, snd (read_document document_id user w) = w)
    /\ (forall document_id document_update,
           primary_keys
             (database (session
                (snd (update_document document_id document_update user w))))
           /\ fresh (session
                (snd (update_document document_id document_update user w)))
           /\ searchspaces
                (database (session
                   (snd (update_document document_id document_update user w))))
              = searchspaces (database (session w)))
    /\ (forall document_id,
           primary_keys
             (database (session (snd (delete_document document_id user w))))
           /\ fresh (session (snd (delete_document document_id user w)))
           /\ searchspaces
                (database (session (snd (delete_document document_id user w))))
              = searchspaces (database (session w))).
Proof.
  intros check_ownership user w Hpk Hfresh.
  split; [intros; now apply create_documents_session|].
  split; [intros; now apply create_documents_fileupload_session|].
  split; [intros; apply read_documents_world|].
  split; [intros; apply read_document_world|].
  split; [intros; now apply update_document_keeps|].
  intros; now apply delete_document_keeps.
Qed.

Lemma requests_keep_keys_and_leave_nothing_pending_witness :
  primary_keys (database (session Sample.world))
  /\ fresh (session Sample.world)
  /\ primary_keys
       (database (session
          (snd (update_document 2 (move_to 20) Sample.alice Sample.world))))
  /\ fresh (session (snd (delete_document 2 Sample.alice Sample.world))).
Proof.
  split; [exact Sample_primary_keys|]. split; [exact Sample_fresh|].
  destruct (requests_keep_keys_and_leave_nothing_pending check_ownership_model
              Sample.alice Sample.world Sample_primary_keys Sample_fresh)
    as (_ & _ & _ & _ & Hupdate & Hdelete).
  split.
  - exact (proj1 (Hupdate 2 (move_to 20))).
  - exact (proj1 (proj2 (Hdelete 2))).
Defined.

(** ** Updates and what follows them *)

Lemma owns_as_space (db : Database) (user : User.t) (doc : Document.t) :
  owns db user doc = owns_space db user (Document.search_space_id doc).
Proof. reflexivity. Qed.

Lemma owns_space_same_spaces (db db' : Database) (user : User.t) (space_id : Z) :
  searchspaces db' = searchspaces db ->
  owns_space db' user space_id = owns_space db user space_id.
Proof. intros H. unfold owns_space. rewrite H. reflexivity. Qed.

(** X14: what a successful update returns is what the single-document
    read of the same id returns right after it, as long as the document is
    still in a search space of the user. *)
Theorem update_then_read :
  forall (document_id : Z) (document_update : DocumentUpdate.t) (user : User.t)
         (w w' : World) (r : DocumentRead.t),
    primary_keys (database (session w)) ->
    fresh (session w) ->
    update_document document_id document_update user w = (Return r, w') ->
    owns_space (database (session w)) user (DocumentRead.search_space_id r) = true ->
    read_document document_id user w' = (Return r, w').
Proof.
  intros document_id document_update user w w' r Hpk Hfresh Hrun Hspace.
  destruct (update_document_keeps document_id document_update user w Hpk Hfresh)
    as ([Hdocs' _] & _ & _).
  rewrite Hrun in Hdocs'. simpl in Hdocs'.
  destruct (update_document_returns _ _ _ _ _ _ Hpk Hfresh Hrun)
    as (old & Hin & Hid & _ & Hr & Hdocs & Hspaces).
  assert (Hnew : In (updated document_update old)
                    (documents (database (session w')))).
  { rewrite Hdocs, <- Hid.
    apply (find_some (has_id (Document.id old))).
    apply find_replaced; [exact Hin | apply updated_id]. }
  assert (Ho : owns (database (session w')) user (updated document_update old) = true).
  { rewrite owns_as_space, (owns_space_same_spaces _ _ user _ Hspaces).
    rewrite Hr in Hspace. exact Hspace. }
  rewrite Hr, <- Hid, <- (updated_id document_update old).
  exact (read_document_owned user w' _ Hdocs' Hnew Ho).
Qed.

Lemma update_then_read_witness :
  primary_keys (database (session Sample.world))
  /\ fresh (session Sample.world)
  /\ read_document 2 Sample.alice
       (snd (update_document 2 (title_only "renamed") Sample.alice Sample.world))
     = (fst (update_document 2 (title_only "renamed") Sample.alice Sample.world),
        snd (update_document 2 (title_only "renamed") Sample.alice Sample.world)).
Proof.
  split; [exact Sample_primary_keys|]. split; [exact Sample_fresh|].
  exact (update_then_read 2 (title_only "renamed") Sample.alice Sample.world
           _ _ Sample_primary_keys Sample_fresh eq_refl eq_refl).
Defined.

Lemma replace_by_itself (old : Document.t) (l : list Document.t) :
  NoDup (map Document.id l) -> In old l ->
  map (replace_row (Document.id old) old) l = l.
Proof.
  intros Hnd Hin. rewrite <- (map_id l) at 2. apply map_ext_in.
  intros row Hrow. unfold replace_row, has_id.
  destruct (Z.eqb_spec (Document.id row) (Document.id old)) as [E|E];
    [|reflexivity].
  symmetry. apply (same_key_same_row Document.id l); auto.
Qed.

(** An update that gives a document the values it has. *)
Lemma update_document_unchanged (document_update : DocumentUpdate.t)
    (user : User.t) (w : World) (old : Document.t) :
  primary_keys (database (session w)) ->
  fresh (session w) ->
  In old (documents (database (session w))) ->
  owns (database (session w)) user old = true ->
  updated document_update old = old ->
  update_document (Document.id old) document_update user w
  = (Return (to_DocumentRead old), w).
Proof.
  intros Hpk Hfresh Hin Ho Hsame. pose proof Hpk as [Hdocs _].
  destruct (rows_of_owned _ user old Hdocs Hin Ho) as (rest & E).
  rewrite (update_document_run _ _ _ _ old rest Hpk Hfresh E).
  rewrite Hsame, (replace_by_itself old _ Hdocs Hin).
  destruct Hfresh as [Hdirty Hdeleted].
  rewrite <- Hdirty at 1. rewrite <- Hdeleted at 1.
  destruct w as [[[docs spaces] di de] ts fs lg]. reflexivity.
Qed.

(** X15: an update whose payload sets no field, or sets fields to the
    values the document has, succeeds, returns the document as it is and
    changes nothing in the world. *)
Theorem update_without_change :
  forall (document_update : DocumentUpdate.t) (user : User.t) (w : World)
         (old : Document.t),
    primary_keys (database (session w)) ->
    fresh (session w) ->
    In old (documents (database (session w))) ->
    owns (database (session w)) user old = true ->
    (updated document_update old = old ->
     update_document (Document.id old) document_update user w
     = (Return (to_DocumentRead old), w))
    /\ update_document (Document.id old) nothing_set user w
       = (Return (to_DocumentRead old), w).
Proof.
  intros document_update user w old Hpk Hfresh Hin Ho. split.
  - intros Hsame.
    exact (update_document_unchanged document_update user w old
             Hpk Hfresh Hin Ho Hsame).
  - exact (update_document_unchanged nothing_set user w old
             Hpk Hfresh Hin Ho eq_refl).
Qed.

Lemma update_without_change_witness :
  primary_keys (database (session Sample.world))
  /\ fresh (session Sample.world)
  /\ In (Sample.doc 2 10 "b") (documents (database (session Sample.world)))
  /\ owns (database (session Sample.world)) Sample.alice (Sample.doc 2 10 "b") = true
  /\ update_document 2 nothing_set Sample.alice Sample.world
     = (Return (to_DocumentRead (Sample.doc 2 10 "b")), Sample.world).
Proof.
  split; [exact Sample_primary_keys|]. split; [exact Sample_fresh|].
  split; [simpl; tauto|]. split; [reflexivity|].
  exact (proj2 (update_without_change nothing_set Sample.alice Sample.world
                  (Sample.doc 2 10 "b") Sample_primary_keys Sample_fresh
                  (or_intror (or_introl eq_refl)) eq_refl)).
Defined.

Lemma assigned_twice {A : Type} (o : option A) (prior : A) :
  assigned o (assigned o prior) = assigned o prior.
Proof. destruct o; reflexivity. Qed.

Lemma updated_twice (u : DocumentUpdate.t) (doc : Document.t) :
  updated u (updated u doc) = updated u doc.
Proof.
  rewrite (updated_attributes u (updated u doc)).
  rewrite (updated_attributes u doc). simpl.
  rewrite !assigned_twice. reflexivity.
Qed.

(** X16: an update is idempotent.  When a successful update leaves the
    document in a search space of the user, the same request sent again
    succeeds with the same answer and changes nothing more. *)
Theorem update_twice :
  forall (document_id : Z) (document_update : DocumentUpdate.t) (user : User.t)
         (w w' : World) (r : DocumentRead.t),
    primary_keys (database (session w)) ->
    fresh (session w) ->
    update_document document_id document_update user w = (Return r, w') ->
    owns_space (database (session w)) user (DocumentRead.search_space_id r) = true ->
    update_document document_id document_update user w' = (Return r, w').
Proof.
  intros document_id document_update user w w' r Hpk Hfresh Hrun Hspace.
  destruct (update_document_keeps document_id document_update user w Hpk Hfresh)
    as (Hpk' & Hfresh' & _).
  rewrite Hrun in Hpk', Hfresh'. simpl in Hpk', Hfresh'.
  destruct (update_document_returns _ _ _ _ _ _ Hpk Hfresh Hrun)
    as (old & Hin & Hid & _ & Hr & Hdocs & Hspaces).
  assert (Hnew : In (updated document_update old)
                    (documents (database (session w')))).
  { rewrite Hdocs, <- Hid.
    apply (find_some (has_id (Document.id old))).
    apply find_replaced; [exact Hin | apply updated_id]. }
  assert (Ho : owns (database (session w')) user (updated document_update old) = true).
  { rewrite owns_as_space, (owns_space_same_spaces _ _ user _ Hspaces).
    rewrite Hr in Hspace. exact Hspace. }
  rewrite Hr, <- Hid, <- (updated_id document_update old).
  exact (update_document_unchanged document_update user w' _
           Hpk' Hfresh' Hnew Ho (updated_twice document_update old)).
Qed.

Lemma update_twice_witness :
  primary_keys (database (session Sample.world))
  /\ fresh (session Sample.world)
  /\ update_document 2 (title_only "renamed") Sample.alice
       (snd (update_document 2 (title_only "renamed") Sample.alice Sample.world))
     = (fst (update_document 2 (title_only "renamed") Sample.alice Sample.world),
        snd (update_document 2 (title_only "renamed") Sample.alice Sample.world)).
Proof.
  split; [exact Sample_primary_keys|]. split; [exact Sample_fresh|].
  exact (update_twice 2 (title_only "renamed") Sample.alice Sample.world
           _ _ Sample_primary_keys Sample_fresh eq_refl eq_refl).
Defined.

(** ** Deletion *)

Lemma delete_one_row (old : Document.t) (l : list Document.t) :
  NoDup (map Document.id l) -> In old l ->
  List.length l
  = S (List.length (filter (fun row => negb (has_id (Document.id old) row)) l)).
Proof.
  induction l as [|row l IH]; simpl; intros Hnd Hin; [contradiction|].
  apply NoDup_cons_iff in Hnd. destruct Hnd as [Hrow Hnd].
  unfold has_id at 1.
  destruct (Z.eqb_spec (Document.id row) (Document.id old)) as [E|E]; simpl.
  - f_equal.
    rewrite (filter_ext_in (fun row0 => negb (has_id (Document.id old) row0))
               (fun _ => true)).
    + now rewrite filter_true.
    + intros x Hx. unfold has_id.
      destruct (Z.eqb_spec (Document.id x) (Document.id old)) as [Ex|Ex];
        [|reflexivity].
      exfalso. apply Hrow. rewrite E, <- Ex. now apply in_map.
  - f_equal. apply IH; [exact Hnd|].
    destruct Hin as [Hin|Hin]; [congruence | exact Hin].
Qed.

(** X17: deleting a document the user owns succeeds and removes that row
    and no other: the table has one row less, the rows left are the rows
    of another id, in the order they had, and the search spaces are as
    they were.  The same request sent again finds nothing and ends with
    the 404, and no listing by the user returns the id any more. *)
Theorem delete_removes_exactly_that_document :
  forall (user : User.t) (w : World) (old : Document.t),
    primary_keys (database (session w)) ->
    fresh (session w) ->
    In old (documents (database (session w))) ->
    owns (database (session w)) user old = true ->
    exists w',
      delete_document (Document.id old) user w
      = (Return "Document deleted successfully", w')
      /\ documents (database (session w'))
         = filter (fun row => negb (Document.id row =? Document.id old))
             (documents (database (session w)))
      /\ searchspaces (database (session w'))
         = searchspaces (database (session w))
      /\ List.length (documents (database (session w)))
         = S (List.length (documents (database (session w'))))
      /\ delete_document (Document.id old) user w'
         = (Raise (HTTPException 404
                     ("Document with id " ++ str_int (Document.id old)
                      ++ " not found")), w')
      /\ (forall skip limit out w'',
             read_documents skip limit user w' = (Return out, w'') ->
             forall r, In r out -> DocumentRead.id r <> Document.id old).
Proof.
  intros user w old Hpk Hfresh Hin Ho. pose proof Hpk as [Hdocs _].
  destruct (rows_of_owned _ user old Hdocs Hin Ho) as (rest & E).
  eexists. split; [exact (delete_document_run _ _ _ old rest Hfresh E)|].
  cbn [session database documents searchspaces with_session].
  split; [reflexivity|]. split; [reflexivity|].
  split; [exact (delete_one_row old _ Hdocs Hin)|].
  assert (Hgone : forall doc,
             In doc (filter (fun row => negb (has_id (Document.id old) row))
                       (documents (database (session w)))) ->
             Document.id doc <> Document.id old).
  { intros doc Hdoc. apply filter_In in Hdoc. destruct Hdoc as [_ Hdoc].
    apply negb_true_iff in Hdoc. now apply Z.eqb_neq. }
  split.
  - apply delete_document_missing. apply none_owned_rows.
    intros doc Hdoc Hid. exfalso. exact (Hgone doc Hdoc Hid).
  - intros skip limit out w'' Hrun r Hr.
    apply read_documents_returns in Hrun. destruct Hrun as [_ Hout].
    subst out. apply in_map_iff in Hr. destruct Hr as (doc & Hr & Hdoc).
    apply page_In in Hdoc. destruct Hdoc as [Hdoc _]. subst r.
    exact (Hgone doc Hdoc).
Qed.

Lemma delete_removes_exactly_that_document_witness :
  primary_keys (database (session Sample.world))
  /\ fresh (session Sample.world)
  /\ In (Sample.doc 2 10 "b") (documents (database (session Sample.world)))
  /\ owns (database (session Sample.world)) Sample.alice (Sample.doc 2 10 "b") = true
  /\ exists w',
       delete_document 2 Sample.alice Sample.world
       = (Return "Document deleted successfully", w')
       /\ map Document.id (documents (database (session w'))) = [1; 3; 4; 5; 6]
       /\ delete_document 2 Sample.alice w'
          = (Raise (HTTPException 404 "Document with id 2 not found"), w').
Proof.
  split; [exact Sample_primary_keys|]. split; [exact Sample_fresh|].
  split; [simpl; tauto|]. split; [reflexivity|].
  destruct (delete_removes_exactly_that_document Sample.alice Sample.world
              (Sample.doc 2 10 "b") Sample_primary_keys Sample_fresh
              (or_intror (or_introl eq_refl)) eq_refl)
    as (w' & Hrun & Hdocs & _ & _ & Hagain & _).
  exists w'. split; [exact Hrun|]. split; [|exact Hagain].
  rewrite Hdocs. reflexivity.
Defined.

(** ** A document moved to somebody else's search space *)

Lemma foreign_not_owned (db : Database) (user : User.t) (doc : Document.t) :
  NoDup (map SearchSpace.id (searchspaces db)) ->
  foreign db user doc = true -> owns db user doc = false.
Proof.
  intros Hnd Hf. destruct (owns db user doc) eqn:Ho; [|reflexivity].
  rewrite (owned_not_foreign db user doc Hnd Ho) in Hf. discriminate.
Qed.

(** X18: when a user moves a document of theirs into a search space that
    belongs to another user, the document changes hands.  The other user
    owns it from then on: it is among the documents their listing draws
    from and their single-document read returns it.  The user who moved
    it owns no document of that id any more: their delete ends with the
    404 and their listings do not return the id. *)
Theorem moved_document_changes_hands :
  forall (document_update : DocumentUpdate.t) (user other : User.t) (w : World)
         (old : Document.t) (target : Z) (space : SearchSpace.t),
    primary_keys (database (session w)) ->
    fresh (session w) ->
    In old (documents (database (session w))) ->
    owns (database (session w)) user old = true ->
    DocumentUpdate.search_space_id document_update = Some target ->
    In space (searchspaces (database (session w))) ->
    SearchSpace.id space = target ->
    SearchSpace.user_id space = User.id other ->
    User.id other <> User.id user ->
    exists w' moved,
      update_document (Document.id old) document_update user w
      = (Return (to_DocumentRead moved), w')
      /\ Document.search_space_id moved = target
      /\ In moved (owned_documents (database (session w')) other)
      /\ read_document (Document.id old) other w'
         = (Return (to_DocumentRead moved), w')
      /\ none_owned (database (session w')) (Document.id old) user
      /\ delete_document (Document.id old) user w'
         = (Raise (HTTPException 404
                     ("Document with id " ++ str_int (Document.id old)
                      ++ " not found")), w')
      /\ (forall skip limit out w'',
             read_documents skip limit user w' = (Return out, w'') ->
             forall r, In r out -> DocumentRead.id r <> Document.id old).
Proof.
  intros document_update user other w old target space
         Hpk Hfresh Hin Ho Hset Hspace Hsid Huid Hother.
  pose proof Hpk as [Hdocs Hspaces].
  destruct (rows_of_owned _ user old Hdocs Hin Ho) as (rest & E).
  pose proof (update_document_run (Document.id old) document_update user w
                old rest Hpk Hfresh E) as Hrun.
  destruct (update_document_keeps (Document.id old) document_update user w
              Hpk Hfresh) as ([Hdocs' _] & _ & _).
  rewrite Hrun in Hdocs'. cbn [snd] in Hdocs'.
  set (moved := updated document_update old) in *.
  set (w' := with_session w _) in *.
  assert (Hmid : Document.id moved = Document.id old) by apply updated_id.
  assert (Hmss : Document.search_space_id moved = target).
  { unfold moved. rewrite updated_attributes. simpl. rewrite Hset. reflexivity. }
  assert (Hmin : In moved (documents (database (session w')))).
  { apply (find_some (has_id (Document.id old))).
    apply find_replaced; [exact Hin | exact Hmid]. }
  assert (Hsp : searchspaces (database (session w'))
                = searchspaces (database (session w))) by reflexivity.
  assert (Hmo : owns (database (session w')) other moved = true).
  { apply owns_true. exists space. rewrite Hsp, Hmss. auto. }
  assert (Hmu : owns (database (session w')) user moved = false).
  { apply foreign_not_owned; [rewrite Hsp; exact Hspaces|].
    unfold foreign. apply existsb_exists. exists space.
    rewrite Hsp. split; [exact Hspace|].
    rewrite Hmss, Hsid, Z.eqb_refl, Huid. simpl.
    apply negb_true_iff. now apply Z.eqb_neq. }
  assert (Hnone : none_owned (database (session w')) (Document.id old) user).
  { intros doc Hdoc Hid.
    assert (doc = moved).
    { apply (same_key_same_row Document.id (documents (database (session w'))));
        auto. congruence. }
    subst doc. exact Hmu. }
  exists w', moved.
  split; [exact Hrun|]. split; [exact Hmss|].
  split; [apply owned_documents_In; auto|].
  split.
  { rewrite <- Hmid. exact (read_document_owned other w' moved Hdocs' Hmin Hmo). }
  split; [exact Hnone|].
  split.
  { apply delete_document_missing. now apply none_owned_rows. }
  intros skip limit out w'' Hlist r Hr Hid.
  apply read_documents_returns in Hlist. destruct Hlist as [_ Hout].
  subst out. apply in_map_iff in Hr. destruct Hr as (doc & Hr & Hdoc).
  apply page_In in Hdoc. destruct Hdoc as [Hdoc Hdo]. subst r.
  rewrite (Hnone doc Hdoc Hid) in Hdo. discriminate.
Qed.

Lemma moved_document_changes_hands_witness :
  primary_keys (database (session Sample.world))
  /\ fresh (session Sample.world)
  /\ In (Sample.doc 2 10 "b") (documents (database (session Sample.world)))
  /\ User.id Sample.bob <> User.id Sample.alice
  /\ exists w' moved,
       update_document 2 (move_to 20) Sample.alice Sample.world
       = (Return (to_DocumentRead moved), w')
       /\ read_document 2 Sample.bob w' = (Return (to_DocumentRead moved), w')
       /\ delete_document 2 Sample.alice w'
          = (Raise (HTTPException 404 "Document with id 2 not found"), w').
Proof.
  assert (Hne : User.id Sample.bob <> User.id Sample.alice) by discriminate.
  split; [exact Sample_primary_keys|]. split; [exact Sample_fresh|].
  split; [simpl; tauto|]. split; [exact Hne|].
  destruct (moved_document_changes_hands (move_to 20) Sample.alice Sample.bob
              Sample.world (Sample.doc 2 10 "b") 20
              {| SearchSpace.id := 20; SearchSpace.user_id := 2 |}
              Sample_primary_keys Sample_fresh
              (or_intror (or_introl eq_refl)) eq_refl eq_refl
              (or_intror (or_introl eq_refl)) eq_refl eq_refl Hne)
    as (w' & moved & Hrun & _ & _ & Hread & _ & Hdelete & _).
  exists w', moved. split; [exact Hrun|]. split; [exact Hread | exact Hdelete].
Defined.

(** ** The tasks of an upload *)










(** ** YouTube *)

Lemma youtube_task_database (print : string -> M unit)
    (url : string) (search_space_id : Z) (w : World) :
  (forall text w0,
      database (session (snd (print text w0))) = database (session w0)) ->
  exists w',
    Tasks.process_youtube_video_with_new_session print url search_space_id w
    = (Return tt, w')
    /\ database (session w') = database (session w).
Proof.
  intros Hprint.
  unfold Tasks.process_youtube_video_with_new_session, async_with_session.
  rewrite logged_run.
  pose proof (Hprint "Processing YouTube video with new session"
                (with_session w (async_session_maker (database (session w)))))
    as Hkeep.
  destruct (print "Processing YouTube video with new session"
              (with_session w (async_session_maker (database (session w)))))
    as [[[]|e] w1]; simpl in Hkeep;
    eexists; (split; [reflexivity|]); simpl; exact Hkeep.
Qed.

(** X20: a request with YouTube URLs is acknowledged with one task per
    URL, and these tasks ingest nothing: whether [print] returns or
    raises, each task returns normally, and after all of them the rows of
    the database are the rows from before the request. *)
Theorem youtube_requests_ingest_nothing :
  forall (check_ownership : Session -> Z -> User.t -> Result SearchSpace.t)
         (add_extension_received_document add_crawled_url_document
            : string -> Z -> M unit)
         (loader_load : FileSystem -> string -> Result (list string))
         (add_received_file_document : string -> list string -> Z -> M unit)
         (print : string -> M unit)
         (urls : list string) (search_space_id : Z) (user : User.t)
         (w : World) (space : SearchSpace.t),
    fresh (session w) ->
    check_ownership (session w) search_space_id user = Return space ->
    (forall text w0,
        database (session (snd (print text w0))) = database (session w0)) ->
    exists w1 w2,
      create_documents check_ownership
        {| DocumentsCreate.document_type := YOUTUBE_VIDEO;
           DocumentsCreate.content := urls;
           DocumentsCreate.search_space_id := search_space_id |} user w
      = (Return "Documents processed successfully", w1)
      /\ fastapi_background_tasks w1
         = (fastapi_background_tasks w
            ++ map (fun url =>
                      process_youtube_video_with_new_session url search_space_id)
                 urls)%list
      /\ for_each
           (map (fun url =>
                   process_youtube_video_with_new_session url search_space_id)
              urls)
           (call_task add_extension_received_document add_crawled_url_document
              loader_load add_received_file_document print) w1
         = (Return tt, w2)
      /\ database (session w2) = database (session w).
Proof.
  intros check_ownership add_ext add_crawl loader_load add_file print
         urls search_space_id user w space Hfresh Hown Hprint.
  assert (Hrun : forall l w0, exists w2,
             for_each
               (map (fun url =>
                       process_youtube_video_with_new_session url search_space_id) l)
               (call_task add_ext add_crawl loader_load add_file print) w0
             = (Return tt, w2)
             /\ database (session w2) = database (session w0)).
  { induction l as [|url l IH]; intros w0; simpl.
    - exists w0. split; reflexivity.
    - destruct (youtube_task_database print url search_space_id w0 Hprint)
        as (w1 & E & Hdb).
      unfold bind. rewrite E.
      destruct (IH w1) as (w2 & E2 & Hdb2).
      exists w2. split; [exact E2 | congruence]. }
  eexists.
  destruct (Hrun urls
              (with_tasks w
                 (fastapi_background_tasks w
                  ++ map (fun url =>
                            process_youtube_video_with_new_session
                              url search_space_id) urls)))
    as (w2 & E2 & Hdb2).
  exists w2. split.
  { exact (create_documents_schedules_one_task_per_item_run check_ownership
             {| DocumentsCreate.document_type := YOUTUBE_VIDEO;
                DocumentsCreate.content := urls;
                DocumentsCreate.search_space_id := search_space_id |}
             user w space Hfresh Hown eq_refl). }
  split; [reflexivity|]. split; [exact E2 | exact Hdb2].
Qed.

Lemma youtube_requests_ingest_nothing_witness :
  fresh (session Sample.world)
  /\ exists w1 w2,
       create_documents check_ownership_model
         {| DocumentsCreate.document_type := YOUTUBE_VIDEO;
            DocumentsCreate.content := ["https://youtu.be/x"];
            DocumentsCreate.search_space_id := 10 |}
         Sample.alice Sample.world
       = (Return "Documents processed successfully", w1)
       /\ for_each [process_youtube_video_with_new_session "https://youtu.be/x" 10]
            (call_task idle idle Background.parsing_loader Background.ingest silent)
            w1
          = (Return tt, w2)
       /\ database (session w2) = Sample.db.
Proof.
  split; [exact Sample_fresh|].
  destruct (youtube_requests_ingest_nothing check_ownership_model
              idle idle Background.parsing_loader Background.ingest silent
              ["https://youtu.be/x"] 10 Sample.alice Sample.world
              {| SearchSpace.id := 10; SearchSpace.user_id := 1 |}
              Sample_fresh eq_refl (fun _ _ => eq_refl))
    as (w1 & w2 & Hreq & _ & Hrun & Hdb).
  exists w1, w2. split; [exact Hreq|]. split; [exact Hrun | exact Hdb].
Defined.
